(** * CycleGAN training controller (cycle_gan.py)

    A shallow embedding of the [CycleGAN] class: the controller object, the
    parameter store of the automatic-differentiation substrate it drives, the
    file system it reads checkpoints from, and a log of the operations it
    issues to its collaborators.  Methods are computations in a state and
    exception monad; a raised exception keeps the state reached so far, as a
    Python exception keeps the mutations done before it. *)

From Stdlib Require Import ZArith List String Bool Arith Lia DecimalString.
From Stdlib Require Import Floats.PrimFloat.
From Stdlib Require Import Ascii.
From Stdlib Require DecimalPos DecimalZ.
Import ListNotations.

Set Implicit Arguments.
Open Scope string_scope.
Open Scope list_scope.

(** ** The substrate: tensors, networks, criteria, serialisation

    Everything the controller treats as an opaque collaborator is a field of
    this interface: the numeric content of tensors, the two network
    architectures of networks.py, the loss criteria, Adam's update rule and
    the encodings of files. *)

Inductive Arch := Generator | Discriminator.

Class Substrate := {
  Data : Type;        (* numeric content of a tensor *)
  Blob : Type;        (* content of a file *)
  Device : Type;
  Rng : Type;         (* state of the random initialiser *)
  AdamState : Type;   (* per-optimizer moment estimates *)

  (* tensor.to(device): whether the content already lives on the device,
     and the content of the copy made when it does not *)
  on_device : Device -> Data -> bool;
  to_device : Device -> Data -> Data;
  (* a + b, a * c for a Python float c, torch.cat(ts, -2) *)
  t_add : Data -> Data -> Data;
  t_mul : Data -> float -> Data;
  t_cat : list Data -> option Data;

  (* CycleGanResnetGenerator / CycleGanDiscriminator: number of parameter
     tensors, their values at construction, and the function computed from
     the current weights; [None] is a rejected input shape *)
  arch_size : Arch -> nat;
  init_weight : Arch -> Rng -> nat -> Data;
  next_rng : Arch -> Rng -> Rng;
  arch_forward : Arch -> list Data -> Data -> option Data;

  (* nn.BCELoss and nn.L1Loss on two tensors; the former rejects a target
     whose size is not the input's *)
  gan_criterion : Data -> Data -> option Data;
  l1_criterion : Data -> Data -> Data;

  (* the derivative of a scalar with the given history with respect to one
     leaf, and its accumulation into the leaf's .grad *)
  grad_wrt : Data -> list nat -> nat -> Data;
  grad_acc : option Data -> Data -> Data;

  (* torch.optim.Adam: new value of one parameter, and the optimizer's state
     after a step over the (parameter, gradient) pairs it saw *)
  adam_init : AdamState;
  adam_data :
    float -> float * float -> AdamState -> nat -> Data -> Data -> Data;
  adam_next :
    float -> float * float -> AdamState -> list (nat * Data) -> AdamState;

  (* torch.save / torch.load of a state dict, save_image, the epoch marker *)
  pickle : list Data -> Blob;
  unpickle : Blob -> option (list Data);
  png : Data -> Blob;
  marker : Z -> Z -> Blob;
  (* load_state_dict(strict=True): whether a state dict has the keys and the
     shapes a network of the architecture expects *)
  fits : Arch -> list Data -> bool;

  (* a tensor that is on the device is its own copy there *)
  to_device_on : forall dev x, on_device dev x = true -> to_device dev x = x
}.

(** ** Exceptions

    The failures the controller surfaces, none of which it catches. *)

Inductive exn :=
| CheckpointLoadError (path : string)
    (* torch.load or load_state_dict failing on the file at [path] *)
| UninitializedInputError
    (* a network called on an undefined input *)
| ShapeMismatchError
    (* a network rejecting a batch *)
| AttributeError (name : string)
    (* an attribute never assigned, or an attribute that None or a bool
       does not have *)
| RuntimeError
    (* backward() on a tensor without history, torch.cat on unfit shapes *)
| ValueError
    (* an optimizer given hyper-parameters out of range or no parameter, a
       criterion given a target of another size *)
| IOError (path : string).
    (* a file that cannot be written *)

(** ** The state and exception monad *)

Inductive Res (S A : Type) :=
| Ok (a : A) (s : S)
| Raise (e : exn) (s : S).

Arguments Ok {S A} a s.
Arguments Raise {S A} e s.

Definition M (S A : Type) := S -> Res S A.

Definition ret {S A} (a : A) : M S A := fun s => Ok a s.

Definition bind {S A B} (m : M S A) (k : A -> M S B) : M S B :=
  fun s => match m s with
           | Ok a s' => k a s'
           | Raise e s' => Raise e s'
           end.

Definition raise {S A} (e : exn) : M S A := fun s => Raise e s.

Definition gets {S A} (f : S -> A) : M S A := fun s => Ok (f s) s.

Definition modify {S} (f : S -> S) : M S unit := fun s => Ok tt (f s).

Notation "x <- m ;; k" := (bind m (fun x => k))
  (at level 61, m at next level, right associativity).
Notation "m ;; k" := (bind m (fun _ => k))
  (at level 61, right associativity).

(** The state an outcome ends in, and whether it is an exception. *)
Definition final {S A} (r : Res S A) : S :=
  match r with Ok _ s => s | Raise _ s => s end.

Definition raised {S A} (r : Res S A) : bool :=
  match r with Ok _ _ => false | Raise _ _ => true end.

Section Controller.

Context {T : Substrate}.

(** ** Data model *)

Definition ParamId := nat.
Definition OptId := nat.

(** A leaf of the autograd graph: a parameter tensor with its [.grad] and its
    [requires_grad] flag. *)
Record Param := {
  p_data : Data;
  p_grad : option Data;
  p_requires_grad : bool
}.

(** A tensor value: its content and its history, the leaves a backward pass
    from it reaches. *)
Record Tensor := {
  t_data : Data;
  t_history : list ParamId
}.

(** A network object: its architecture and the leaves holding its weights,
    in the order of [parameters()]. *)
Record Net := {
  n_arch : Arch;
  n_params : list ParamId
}.

(** A [torch.optim.Adam] object: its parameter group, its hyper-parameters
    and its moment estimates. *)
Record Optimizer := {
  o_params : list ParamId;
  o_lr : float;
  o_betas : float * float;
  o_state : AdamState
}.

(** Modelled from the spec: utils.EpochTracker is not among the sources; the
    marker file "<prefix>epoch.txt" is read at construction, its existence
    gates the loading of weights, and [write] records an (epoch, iteration)
    pair in it. *)
Record EpochTracker := {
  et_file : string;
  file_exists : bool
}.

(** What a loss attribute holds: the integer 0 of [__init__], or a tensor. *)
Inductive Value :=
| VInt (z : Z)
| VTensor (t : Tensor).

(** The target a criterion is called with: a tensor, or the Python bool the
    methods pass as label. *)
Inductive Target :=
| TTensor (t : Tensor)
| TBool (b : bool).

(** Operations issued to the substrate, in program order. *)
Inductive Event :=
| EvCall (net : Net) (input : Tensor) (tracking : bool)
| EvRequiresGrad (p : ParamId) (flag : bool)
| EvZeroGrad (o : OptId)
| EvBackward (loss : Tensor)
| EvStep (o : OptId)
| EvRead (path : string)
| EvWrite (path : string).

(** Everything outside the controller object: the leaves of the autograd
    graph and the optimizer objects, each addressed by its identity, the
    file system, the gradient mode, the random initialiser, and the log. *)
Record World := {
  store : ParamId -> Param;
  next_param : ParamId;
  optim : OptId -> Optimizer;
  next_optim : OptId;
  files : string -> option Blob;
  writable : string -> bool;
  grad_enabled : bool;
  rng : Rng;
  log : list Event
}.

(** The attributes of a [CycleGAN] object.  An attribute of type [option]
    that [__init__] assigns only under [if train:] is [None] while unassigned;
    the six sample attributes are always assigned and hold Python's [None]
    until a batch is stored. *)
Record CycleGAN := {
  name : string;
  lambda_A : float;
  lambda_B : float;
  is_train : bool;
  device : Device;
  file_prefix : string;
  epoch_tracker : EpochTracker;
  GenA : Net;
  GenB : Net;
  real_A : option Tensor;
  real_B : option Tensor;
  fake_A : option Tensor;
  fake_B : option Tensor;
  new_A : option Tensor;
  new_B : option Tensor;
  DisA : option Net;
  DisB : option Net;
  criterionGAN : option (Data -> Data -> option Data);
  criterionCycle : option (Data -> Data -> Data);
  criterionIdt : option (Data -> Data -> Data);
  optimizer_g : option OptId;
  optimizer_d : option OptId;
  optimizers : option (list OptId);
  loss_disA : option Value;
  loss_disB : option Value;
  loss_cycle_A : option Value;
  loss_cycle_B : option Value;
  loss_genA : option Value;
  loss_genB : option Value;
  loss_G : option Value
}.

Record State := {
  self : CycleGAN;
  world : World
}.

(** ** Attribute assignment

    Python assigns one attribute and leaves the others; each setter rebuilds
    the record with one field replaced. *)

Definition set_real_A (v : option Tensor) (c : CycleGAN) : CycleGAN :=
  {| name := name c; lambda_A := lambda_A c; lambda_B := lambda_B c;
     is_train := is_train c; device := device c;
     file_prefix := file_prefix c; epoch_tracker := epoch_tracker c;
     GenA := GenA c; GenB := GenB c; real_A := v; real_B := real_B c;
     fake_A := fake_A c; fake_B := fake_B c; new_A := new_A c;
     new_B := new_B c; DisA := DisA c; DisB := DisB c;
     criterionGAN := criterionGAN c; criterionCycle := criterionCycle c;
     criterionIdt := criterionIdt c; optimizer_g := optimizer_g c;
     optimizer_d := optimizer_d c; optimizers := optimizers c;
     loss_disA := loss_disA c; loss_disB := loss_disB c;
     loss_cycle_A := loss_cycle_A c; loss_cycle_B := loss_cycle_B c;
     loss_genA := loss_genA c; loss_genB := loss_genB c; loss_G := loss_G c |}.

Definition set_real_B (v : option Tensor) (c : CycleGAN) : CycleGAN :=
  {| name := name c; lambda_A := lambda_A c; lambda_B := lambda_B c;
     is_train := is_train c; device := device c;
     file_prefix := file_prefix c; epoch_tracker := epoch_tracker c;
     GenA := GenA c; GenB := GenB c; real_A := real_A c; real_B := v;
     fake_A := fake_A c; fake_B := fake_B c; new_A := new_A c;
     new_B := new_B c; DisA := DisA c; DisB := DisB c;
     criterionGAN := criterionGAN c; criterionCycle := criterionCycle c;
     criterionIdt := criterionIdt c; optimizer_g := optimizer_g c;
     optimizer_d := optimizer_d c; optimizers := optimizers c;
     loss_disA := loss_disA c; loss_disB := loss_disB c;
     loss_cycle_A := loss_cycle_A c; loss_cycle_B := loss_cycle_B c;
     loss_genA := loss_genA c; loss_genB := loss_genB c; loss_G := loss_G c |}.

Definition set_fake_A (v : option Tensor) (c : CycleGAN) : CycleGAN :=
  {| name := name c; lambda_A := lambda_A c; lambda_B := lambda_B c;
     is_train := is_train c; device := device c;
     file_prefix := file_prefix c; epoch_tracker := epoch_tracker c;
     GenA := GenA c; GenB := GenB c; real_A := real_A c; real_B := real_B c;
     fake_A := v; fake_B := fake_B c; new_A := new_A c; new_B := new_B c;
     DisA := DisA c; DisB := DisB c; criterionGAN := criterionGAN c;
     criterionCycle := criterionCycle c; criterionIdt := criterionIdt c;
     optimizer_g := optimizer_g c; optimizer_d := optimizer_d c;
     optimizers := optimizers c; loss_disA := loss_disA c;
     loss_disB := loss_disB c; loss_cycle_A := loss_cycle_A c;
     loss_cycle_B := loss_cycle_B c; loss_genA := loss_genA c;
     loss_genB := loss_genB c; loss_G := loss_G c |}.

Definition set_fake_B (v : option Tensor) (c : CycleGAN) : CycleGAN :=
  {| name := name c; lambda_A := lambda_A c; lambda_B := lambda_B c;
     is_train := is_train c; device := device c;
     file_prefix := file_prefix c; epoch_tracker := epoch_tracker c;
     GenA := GenA c; GenB := GenB c; real_A := real_A c; real_B := real_B c;
     fake_A := fake_A c; fake_B := v; new_A := new_A c; new_B := new_B c;
     DisA := DisA c; DisB := DisB c; criterionGAN := criterionGAN c;
     criterionCycle := criterionCycle c; criterionIdt := criterionIdt c;
     optimizer_g := optimizer_g c; optimizer_d := optimizer_d c;
     optimizers := optimizers c; loss_disA := loss_disA c;
     loss_disB := loss_disB c; loss_cycle_A := loss_cycle_A c;
     loss_cycle_B := loss_cycle_B c; loss_genA := loss_genA c;
     loss_genB := loss_genB c; loss_G := loss_G c |}.

Definition set_new_A (v : option Tensor) (c : CycleGAN) : CycleGAN :=
  {| name := name c; lambda_A := lambda_A c; lambda_B := lambda_B c;
     is_train := is_train c; device := device c;
     file_prefix := file_prefix c; epoch_tracker := epoch_tracker c;
     GenA := GenA c; GenB := GenB c; real_A := real_A c; real_B := real_B c;
     fake_A := fake_A c; fake_B := fake_B c; new_A := v; new_B := new_B c;
     DisA := DisA c; DisB := DisB c; criterionGAN := criterionGAN c;
     criterionCycle := criterionCycle c; criterionIdt := criterionIdt c;
     optimizer_g := optimizer_g c; optimizer_d := optimizer_d c;
     optimizers := optimizers c; loss_disA := loss_disA c;
     loss_disB := loss_disB c; loss_cycle_A := loss_cycle_A c;
     loss_cycle_B := loss_cycle_B c; loss_genA := loss_genA c;
     loss_genB := loss_genB c; loss_G := loss_G c |}.

Definition set_new_B (v : option Tensor) (c : CycleGAN) : CycleGAN :=
  {| name := name c; lambda_A := lambda_A c; lambda_B := lambda_B c;
     is_train := is_train c; device := device c;
     file_prefix := file_prefix c; epoch_tracker := epoch_tracker c;
     GenA := GenA c; GenB := GenB c; real_A := real_A c; real_B := real_B c;
     fake_A := fake_A c; fake_B := fake_B c; new_A := new_A c; new_B := v;
     DisA := DisA c; DisB := DisB c; criterionGAN := criterionGAN c;
     criterionCycle := criterionCycle c; criterionIdt := criterionIdt c;
     optimizer_g := optimizer_g c; optimizer_d := optimizer_d c;
     optimizers := optimizers c; loss_disA := loss_disA c;
     loss_disB := loss_disB c; loss_cycle_A := loss_cycle_A c;
     loss_cycle_B := loss_cycle_B c; loss_genA := loss_genA c;
     loss_genB := loss_genB c; loss_G := loss_G c |}.

Definition set_loss_disA (v : option Value) (c : CycleGAN) : CycleGAN :=
  {| name := name c; lambda_A := lambda_A c; lambda_B := lambda_B c;
     is_train := is_train c; device := device c;
     file_prefix := file_prefix c; epoch_tracker := epoch_tracker c;
     GenA := GenA c; GenB := GenB c; real_A := real_A c; real_B := real_B c;
     fake_A := fake_A c; fake_B := fake_B c; new_A := new_A c;
     new_B := new_B c; DisA := DisA c; DisB := DisB c;
     criterionGAN := criterionGAN c; criterionCycle := criterionCycle c;
     criterionIdt := criterionIdt c; optimizer_g := optimizer_g c;
     optimizer_d := optimizer_d c; optimizers := optimizers c;
     loss_disA := v; loss_disB := loss_disB c;
     loss_cycle_A := loss_cycle_A c; loss_cycle_B := loss_cycle_B c;
     loss_genA := loss_genA c; loss_genB := loss_genB c; loss_G := loss_G c |}.

Definition set_loss_disB (v : option Value) (c : CycleGAN) : CycleGAN :=
  {| name := name c; lambda_A := lambda_A c; lambda_B := lambda_B c;
     is_train := is_train c; device := device c;
     file_prefix := file_prefix c; epoch_tracker := epoch_tracker c;
     GenA := GenA c; GenB := GenB c; real_A := real_A c; real_B := real_B c;
     fake_A := fake_A c; fake_B := fake_B c; new_A := new_A c;
     new_B := new_B c; DisA := DisA c; DisB := DisB c;
     criterionGAN := criterionGAN c; criterionCycle := criterionCycle c;
     criterionIdt := criterionIdt c; optimizer_g := optimizer_g c;
     optimizer_d := optimizer_d c; optimizers := optimizers c;
     loss_disA := loss_disA c; loss_disB := v;
     loss_cycle_A := loss_cycle_A c; loss_cycle_B := loss_cycle_B c;
     loss_genA := loss_genA c; loss_genB := loss_genB c; loss_G := loss_G c |}.

Definition set_loss_cycle_A (v : option Value) (c : CycleGAN) : CycleGAN :=
  {| name := name c; lambda_A := lambda_A c; lambda_B := lambda_B c;
     is_train := is_train c; device := device c;
     file_prefix := file_prefix c; epoch_tracker := epoch_tracker c;
     GenA := GenA c; GenB := GenB c; real_A := real_A c; real_B := real_B c;
     fake_A := fake_A c; fake_B := fake_B c; new_A := new_A c;
     new_B := new_B c; DisA := DisA c; DisB := DisB c;
     criterionGAN := criterionGAN c; criterionCycle := criterionCycle c;
     criterionIdt := criterionIdt c; optimizer_g := optimizer_g c;
     optimizer_d := optimizer_d c; optimizers := optimizers c;
     loss_disA := loss_disA c; loss_disB := loss_disB c; loss_cycle_A := v;
     loss_cycle_B := loss_cycle_B c; loss_genA := loss_genA c;
     loss_genB := loss_genB c; loss_G := loss_G c |}.

Definition set_loss_cycle_B (v : option Value) (c : CycleGAN) : CycleGAN :=
  {| name := name c; lambda_A := lambda_A c; lambda_B := lambda_B c;
     is_train := is_train c; device := device c;
     file_prefix := file_prefix c; epoch_tracker := epoch_tracker c;
     GenA := GenA c; GenB := GenB c; real_A := real_A c; real_B := real_B c;
     fake_A := fake_A c; fake_B := fake_B c; new_A := new_A c;
     new_B := new_B c; DisA := DisA c; DisB := DisB c;
     criterionGAN := criterionGAN c; criterionCycle := criterionCycle c;
     criterionIdt := criterionIdt c; optimizer_g := optimizer_g c;
     optimizer_d := optimizer_d c; optimizers := optimizers c;
     loss_disA := loss_disA c; loss_disB := loss_disB c;
     loss_cycle_A := loss_cycle_A c; loss_cycle_B := v;
     loss_genA := loss_genA c; loss_genB := loss_genB c; loss_G := loss_G c |}.

Definition set_loss_genA (v : option Value) (c : CycleGAN) : CycleGAN :=
  {| name := name c; lambda_A := lambda_A c; lambda_B := lambda_B c;
     is_train := is_train c; device := device c;
     file_prefix := file_prefix c; epoch_tracker := epoch_tracker c;
     GenA := GenA c; GenB := GenB c; real_A := real_A c; real_B := real_B c;
     fake_A := fake_A c; fake_B := fake_B c; new_A := new_A c;
     new_B := new_B c; DisA := DisA c; DisB := DisB c;
     criterionGAN := criterionGAN c; criterionCycle := criterionCycle c;
     criterionIdt := criterionIdt c; optimizer_g := optimizer_g c;
     optimizer_d := optimizer_d c; optimizers := optimizers c;
     loss_disA := loss_disA c; loss_disB := loss_disB c;
     loss_cycle_A := loss_cycle_A c; loss_cycle_B := loss_cycle_B c;
     loss_genA := v; loss_genB := loss_genB c; loss_G := loss_G c |}.

Definition set_loss_genB (v : option Value) (c : CycleGAN) : CycleGAN :=
  {| name := name c; lambda_A := lambda_A c; lambda_B := lambda_B c;
     is_train := is_train c; device := device c;
     file_prefix := file_prefix c; epoch_tracker := epoch_tracker c;
     GenA := GenA c; GenB := GenB c; real_A := real_A c; real_B := real_B c;
     fake_A := fake_A c; fake_B := fake_B c; new_A := new_A c;
     new_B := new_B c; DisA := DisA c; DisB := DisB c;
     criterionGAN := criterionGAN c; criterionCycle := criterionCycle c;
     criterionIdt := criterionIdt c; optimizer_g := optimizer_g c;
     optimizer_d := optimizer_d c; optimizers := optimizers c;
     loss_disA := loss_disA c; loss_disB := loss_disB c;
     loss_cycle_A := loss_cycle_A c; loss_cycle_B := loss_cycle_B c;
     loss_genA := loss_genA c; loss_genB := v; loss_G := loss_G c |}.

Definition set_loss_G (v : option Value) (c : CycleGAN) : CycleGAN :=
  {| name := name c; lambda_A := lambda_A c; lambda_B := lambda_B c;
     is_train := is_train c; device := device c;
     file_prefix := file_prefix c; epoch_tracker := epoch_tracker c;
     GenA := GenA c; GenB := GenB c; real_A := real_A c; real_B := real_B c;
     fake_A := fake_A c; fake_B := fake_B c; new_A := new_A c;
     new_B := new_B c; DisA := DisA c; DisB := DisB c;
     criterionGAN := criterionGAN c; criterionCycle := criterionCycle c;
     criterionIdt := criterionIdt c; optimizer_g := optimizer_g c;
     optimizer_d := optimizer_d c; optimizers := optimizers c;
     loss_disA := loss_disA c; loss_disB := loss_disB c;
     loss_cycle_A := loss_cycle_A c; loss_cycle_B := loss_cycle_B c;
     loss_genA := loss_genA c; loss_genB := loss_genB c; loss_G := v |}.

Definition set_store (v : ParamId -> Param) (w : World) : World :=
  {| store := v; next_param := next_param w; optim := optim w;
     next_optim := next_optim w; files := files w; writable := writable w;
     grad_enabled := grad_enabled w; rng := rng w; log := log w |}.

Definition set_optim (v : OptId -> Optimizer) (w : World) : World :=
  {| store := store w; next_param := next_param w; optim := v;
     next_optim := next_optim w; files := files w; writable := writable w;
     grad_enabled := grad_enabled w; rng := rng w; log := log w |}.

Definition set_files (v : string -> option Blob) (w : World) : World :=
  {| store := store w; next_param := next_param w; optim := optim w;
     next_optim := next_optim w; files := v; writable := writable w;
     grad_enabled := grad_enabled w; rng := rng w; log := log w |}.

Definition set_grad_enabled (v : bool) (w : World) : World :=
  {| store := store w; next_param := next_param w; optim := optim w;
     next_optim := next_optim w; files := files w; writable := writable w;
     grad_enabled := v; rng := rng w; log := log w |}.

Definition set_log (v : list Event) (w : World) : World :=
  {| store := store w; next_param := next_param w; optim := optim w;
     next_optim := next_optim w; files := files w; writable := writable w;
     grad_enabled := grad_enabled w; rng := rng w; log := v |}.


(** ** Running substrate operations and reading attributes *)

(** A substrate operation run from a method of the controller. *)
Definition liftW {A} (m : M World A) : M State A :=
  fun s => match m (world s) with
           | Ok a w => Ok a {| self := self s; world := w |}
           | Raise e w => Raise e {| self := self s; world := w |}
           end.

(** [self.x] for an attribute that is always assigned. *)
Definition getattr {A} (f : CycleGAN -> A) : M State A :=
  gets (fun s => f (self s)).

(** [self.x] for an attribute assigned only in training mode. *)
Definition attr {A} (x : string) (f : CycleGAN -> option A) : M State A :=
  fun s => match f (self s) with
           | Some a => Ok a s
           | None => Raise (AttributeError x) s
           end.

(** [self.x = v] *)
Definition setattr (f : CycleGAN -> CycleGAN) : M State unit :=
  modify (fun s => {| self := f (self s); world := world s |}).

(** ** Substrate operations *)

Definition mem (p : ParamId) (l : list ParamId) : bool :=
  existsb (Nat.eqb p) l.

(** The store with [f] applied to the leaves in [l]. *)
Definition update (l : list ParamId) (f : ParamId -> Param -> Param)
    (st : ParamId -> Param) : ParamId -> Param :=
  fun p => if mem p l then f p (st p) else st p.

Definition emit (e : Event) : M World unit :=
  modify (fun w => set_log (log w ++ [e]) w).

(** The history an operation records for its result: that of its operands
    while gradient tracking is enabled, none inside a no-grad scope. *)
Definition record (h : list ParamId) : M World (list ParamId) :=
  gets (fun w => if grad_enabled w then h else []).

Definition weights (st : ParamId -> Param) (net : Net) : list Data :=
  map (fun p => p_data (st p)) (n_params net).

Definition trainable (st : ParamId -> Param) (net : Net) : list ParamId :=
  filter (fun p => p_requires_grad (st p)) (n_params net).

(** Modelled from the spec: networks.py is not among the sources; a network
    is a pure tensor-to-tensor call computed from its current weights, fails
    with UninitializedInputError on an undefined input and with
    ShapeMismatchError on a batch it rejects. *)
Definition call_net (net : Net) (x : option Tensor) : M World Tensor :=
  match x with
  | None => raise UninitializedInputError
  | Some t =>
      w <- gets (fun w => w) ;;
      emit (EvCall net t (grad_enabled w)) ;;
      match arch_forward (n_arch net) (weights (store w) net) (t_data t) with
      | None => raise ShapeMismatchError
      | Some d =>
          h <- record (trainable (store w) net ++ t_history t) ;;
          ret {| t_data := d; t_history := h |}
      end
  end.

(** [t.to(device)] *)
Definition tensor_to (dev : Device) (t : Tensor) : M World Tensor :=
  if on_device dev (t_data t)
  then ret t
  else
    h <- record (t_history t) ;;
    ret {| t_data := to_device dev (t_data t); t_history := h |}.

(** [t.detach()] and [t.data]: the same content, no history. *)
Definition detach (x : option Tensor) : M World Tensor :=
  match x with
  | None => raise (AttributeError "detach")
  | Some t => ret {| t_data := t_data t; t_history := [] |}
  end.

Definition tensor_data (x : option Tensor) : M World Tensor :=
  match x with
  | None => raise (AttributeError "data")
  | Some t => ret {| t_data := t_data t; t_history := [] |}
  end.

Definition tensor_add (a b : Tensor) : M World Tensor :=
  h <- record (t_history a ++ t_history b) ;;
  ret {| t_data := t_add (t_data a) (t_data b); t_history := h |}.

Definition tensor_mul (a : Tensor) (c : float) : M World Tensor :=
  h <- record (t_history a) ;;
  ret {| t_data := t_mul (t_data a) c; t_history := h |}.

(** [criterion(prediction, target)] for the adversarial criterion, which
    starts by comparing [target.size()] with the size of the prediction: a
    Python bool has no [size]. *)
Definition call_gan (crit : Data -> Data -> option Data) (pred : Tensor)
    (target : Target) : M World Tensor :=
  match target with
  | TBool _ => raise (AttributeError "size")
  | TTensor t =>
      match crit (t_data pred) (t_data t) with
      | None => raise ValueError
      | Some d =>
          h <- record (t_history pred ++ t_history t) ;;
          ret {| t_data := d; t_history := h |}
      end
  end.

(** [criterion(a, b)] for an L1 criterion; an undefined operand has no size. *)
Definition call_l1 (crit : Data -> Data -> Data) (a b : option Tensor)
    : M World Tensor :=
  match a, b with
  | Some x, Some y =>
      h <- record (t_history x ++ t_history y) ;;
      ret {| t_data := crit (t_data x) (t_data y); t_history := h |}
  | _, _ => raise (AttributeError "size")
  end.

(** [loss.backward()]: accumulates the derivative of the loss into the
    [.grad] of the leaves of its history that still require a gradient (a
    leaf frozen since the forward pass is skipped); a tensor without history
    cannot be differentiated. *)
Definition accumulate (loss : Tensor) (p : ParamId) (x : Param) : Param :=
  {| p_data := p_data x;
     p_grad := Some (grad_acc (p_grad x)
                       (grad_wrt (t_data loss) (t_history loss) p));
     p_requires_grad := p_requires_grad x |}.

Definition reached (st : ParamId -> Param) (loss : Tensor) : list ParamId :=
  filter (fun p => p_requires_grad (st p)) (t_history loss).

Definition backward (loss : Tensor) : M World unit :=
  emit (EvBackward loss) ;;
  match t_history loss with
  | [] => raise RuntimeError
  | _ :: _ =>
      modify (fun w => set_store (update (reached (store w) loss)
                                    (accumulate loss) (store w)) w)
  end.

(** [optimizer.zero_grad()] *)
Definition clear_grad (p : ParamId) (x : Param) : Param :=
  {| p_data := p_data x; p_grad := None;
     p_requires_grad := p_requires_grad x |}.

Definition zero_grad (o : OptId) : M World unit :=
  emit (EvZeroGrad o) ;;
  modify (fun w => set_store (update (o_params (optim w o)) clear_grad
                                (store w)) w).

(** [optimizer.step()]: every parameter of the group that has a gradient
    moves by Adam's rule; the moment estimates advance. *)
Definition adam_param (opt : Optimizer) (p : ParamId) (x : Param) : Param :=
  match p_grad x with
  | None => x
  | Some g =>
      {| p_data := adam_data (o_lr opt) (o_betas opt) (o_state opt) p
                     (p_data x) g;
         p_grad := p_grad x;
         p_requires_grad := p_requires_grad x |}
  end.

Fixpoint seen_grads (st : ParamId -> Param) (l : list ParamId)
    : list (ParamId * Data) :=
  match l with
  | [] => []
  | p :: l' =>
      match p_grad (st p) with
      | Some g => (p, g) :: seen_grads st l'
      | None => seen_grads st l'
      end
  end.

Definition adam_advance (st : ParamId -> Param) (opt : Optimizer) : Optimizer :=
  {| o_params := o_params opt; o_lr := o_lr opt; o_betas := o_betas opt;
     o_state := adam_next (o_lr opt) (o_betas opt) (o_state opt)
                  (seen_grads st (o_params opt)) |}.

Definition step (o : OptId) : M World unit :=
  emit (EvStep o) ;;
  modify (fun w =>
    let opt := optim w o in
    set_optim (fun o' => if Nat.eqb o' o then adam_advance (store w) opt
                         else optim w o')
      (set_store (update (o_params opt) (adam_param opt) (store w)) w)).

(** [for x in l: body(x)] *)
Fixpoint for_each {S A} (l : list A) (body : A -> M S unit) : M S unit :=
  match l with
  | [] => ret tt
  | x :: l' => body x ;; for_each l' body
  end.

(** [param.requires_grad = flag] *)
Definition with_flag (flag : bool) (p : ParamId) (x : Param) : Param :=
  {| p_data := p_data x; p_grad := p_grad x; p_requires_grad := flag |}.

Definition set_flag (flag : bool) (p : ParamId) : M World unit :=
  emit (EvRequiresGrad p flag) ;;
  modify (fun w => set_store (update [p] (with_flag flag) (store w)) w).

(** ** Files *)

Definition write_file (path : string) (b : Blob) : M World unit :=
  emit (EvWrite path) ;;
  w <- gets (fun w => w) ;;
  if writable w path
  then modify (set_files (fun q => if String.eqb q path then Some b
                                   else files w q))
  else raise (IOError path).

(** [net.state_dict()] *)
Definition state_dict (net : Net) : M World (list Data) :=
  gets (fun w => weights (store w) net).

(** [torch.save(sd, path)] *)
Definition torch_save (sd : list Data) (path : string) : M World unit :=
  write_file path (pickle sd).

(** [save_image(img, path, nrow=5, normalize=True)] *)
Definition save_image (img : Tensor) (path : string) : M World unit :=
  write_file path (png (t_data img)).

(** The store with the weights [sd] copied into the leaves [l], in order. *)
Fixpoint assign (l : list ParamId) (sd : list Data) (st : ParamId -> Param)
    : ParamId -> Param :=
  match l, sd with
  | p :: l', d :: sd' =>
      assign l' sd'
        (update [p] (fun _ x => {| p_data := d; p_grad := p_grad x;
                                   p_requires_grad := p_requires_grad x |}) st)
  | _, _ => st
  end.

(** What strict loading accepts for a network: a state dict with the keys
    and shapes of its architecture, one tensor for each of its parameters. *)
Definition accepts (net : Net) (sd : list Data) : bool :=
  fits (n_arch net) sd &&
  Nat.eqb (List.length sd) (List.length (n_params net)).

(** [net.load_state_dict(torch.load(path))]: the file must exist, decode to
    a state dict, and the state dict must fit the network. *)
Definition load_weights (net : Net) (path : string) : M World unit :=
  emit (EvRead path) ;;
  w <- gets (fun w => w) ;;
  match files w path with
  | None => raise (CheckpointLoadError path)
  | Some b =>
      match unpickle b with
      | None => raise (CheckpointLoadError path)
      | Some sd =>
          if accepts net sd
          then modify (set_store (assign (n_params net) sd (store w)))
          else raise (CheckpointLoadError path)
      end
  end.

(** Modelled from the spec: [EpochTracker(file)] of utils (not among the
    sources) notes whether the marker file exists. *)
Definition new_tracker (file : string) : M World EpochTracker :=
  gets (fun w => {| et_file := file;
                    file_exists := match files w file with
                                   | Some _ => true
                                   | None => false
                                   end |}).

(** Modelled from the spec: [tracker.write(epoch, iteration)] of utils (not
    among the sources) updates the marker file. *)
Definition tracker_write (t : EpochTracker) (epoch iteration : Z)
    : M World unit :=
  write_file (et_file t) (marker epoch iteration).

(** ** Construction of networks and optimizers *)

(** [Arch().to(device)]: fresh leaves, freshly initialised, tracking on. *)
Definition new_net (a : Arch) (dev : Device) : M World Net :=
  fun w =>
    let ids := seq (next_param w) (arch_size a) in
    Ok {| n_arch := a; n_params := ids |}
       {| store := fun p =>
            if mem p ids
            then {| p_data := to_device dev
                                (init_weight a (rng w) (p - next_param w));
                    p_grad := None; p_requires_grad := true |}
            else store w p;
          next_param := next_param w + arch_size a;
          optim := optim w; next_optim := next_optim w;
          files := files w; writable := writable w;
          grad_enabled := grad_enabled w;
          rng := next_rng a (rng w); log := log w |}.

(** The checks of [Adam.__init__]: [0.0 <= lr] and [0.0 <= beta < 1.0] for
    both betas (a comparison with NaN is false), and a parameter list that
    is not empty. *)
Definition in_range (lr : float) (betas : float * float) : bool :=
  PrimFloat.leb 0%float lr &&
  PrimFloat.leb 0%float (fst betas) && PrimFloat.ltb (fst betas) 1%float &&
  PrimFloat.leb 0%float (snd betas) && PrimFloat.ltb (snd betas) 1%float.

Definition adam_accepts (params : list ParamId) (lr : float)
    (betas : float * float) : bool :=
  in_range lr betas && negb (Nat.eqb (List.length params) 0).

(** [torch.optim.Adam(params, lr=lr, betas=betas)] *)
Definition new_adam (params : list ParamId) (lr : float)
    (betas : float * float) : M World OptId :=
  fun w =>
    if adam_accepts params lr betas
    then
      let o := next_optim w in
      Ok o
         {| store := store w; next_param := next_param w;
            optim := fun o' =>
              if Nat.eqb o' o
              then {| o_params := params; o_lr := lr; o_betas := betas;
                      o_state := adam_init |}
              else optim w o';
            next_optim := S o;
            files := files w; writable := writable w;
            grad_enabled := grad_enabled w; rng := rng w; log := log w |}
    else Raise ValueError w.

(** ** The class CycleGAN *)

#[local] Set Warnings "-inexact-float".

(** The object after line 26 of [__init__]: no training attribute yet. *)
Definition inference_object (dev : Device) (prefix : string)
    (tracker : EpochTracker) (genA genB : Net) (train : bool) : CycleGAN :=
  {| name := "CycleGAN"; lambda_A := 10.0%float; lambda_B := 10.0%float;
     is_train := train; device := dev; file_prefix := prefix;
     epoch_tracker := tracker; GenA := genA; GenB := genB;
     real_A := None; real_B := None; fake_A := None; fake_B := None;
     new_A := None; new_B := None;
     DisA := None; DisB := None;
     criterionGAN := None; criterionCycle := None; criterionIdt := None;
     optimizer_g := None; optimizer_d := None; optimizers := None;
     loss_disA := None; loss_disB := None; loss_cycle_A := None;
     loss_cycle_B := None; loss_genA := None; loss_genB := None;
     loss_G := None |}.

(** The assignments under [if train:], lines 29 to 46. *)
Definition training_object (c : CycleGAN) (disA disB : Net) (og od : OptId)
    : CycleGAN :=
  {| name := name c; lambda_A := lambda_A c; lambda_B := lambda_B c;
     is_train := is_train c; device := device c;
     file_prefix := file_prefix c; epoch_tracker := epoch_tracker c;
     GenA := GenA c; GenB := GenB c;
     real_A := real_A c; real_B := real_B c; fake_A := fake_A c;
     fake_B := fake_B c; new_A := new_A c; new_B := new_B c;
     DisA := Some disA; DisB := Some disB;
     criterionGAN := Some gan_criterion;
     criterionCycle := Some l1_criterion;
     criterionIdt := Some l1_criterion;
     optimizer_g := Some og; optimizer_d := Some od;
     optimizers := Some [og; od];
     loss_disA := Some (VInt 0); loss_disB := Some (VInt 0);
     loss_cycle_A := Some (VInt 0); loss_cycle_B := Some (VInt 0);
     loss_genA := Some (VInt 0); loss_genB := Some (VInt 0);
     loss_G := Some (VInt 0) |}.

(** [self.x] while the object is under construction. *)
Definition init_attr {A} (x : string) (v : option A) : M World A :=
  match v with
  | Some a => ret a
  | None => raise (AttributeError x)
  end.

(** Lines 13 to 46: the collaborators are built, nothing is read yet. *)
Definition construct (dev : Device) (prefix : string)
    (learning_rate beta1 : float) (train : bool) : M World CycleGAN :=
  tracker <- new_tracker (prefix ++ "epoch.txt") ;;
  genA <- new_net Generator dev ;;
  genB <- new_net Generator dev ;;
  let c := inference_object dev prefix tracker genA genB train in
  if train
  then
    disA <- new_net Discriminator dev ;;
    disB <- new_net Discriminator dev ;;
    og <- new_adam (n_params (GenA c) ++ n_params (GenB c))
            learning_rate (beta1, 0.999%float) ;;
    od <- new_adam (n_params disA ++ n_params disB)
            learning_rate (beta1, 0.999%float) ;;
    ret (training_object c disA disB og od)
  else ret c.

(** Lines 48 to 54: the weights are loaded when the marker was found. *)
Definition resume (c : CycleGAN) (prefix : string) (train : bool)
    : M World unit :=
  if file_exists (epoch_tracker c)
  then
    load_weights (GenA c) (prefix ++ "generator_a.pth") ;;
    load_weights (GenB c) (prefix ++ "generator_b.pth") ;;
    if train
    then
      disA <- init_attr "DisA" (DisA c) ;;
      load_weights disA (prefix ++ "discriminator_a.pth") ;;
      disB <- init_attr "DisB" (DisB c) ;;
      load_weights disB (prefix ++ "discriminator_b.pth")
    else ret tt
  else ret tt.

Definition __init__ {O : Type} (options : O) (dev : Device)
    (prefix : string) (learning_rate beta1 : float) (train : bool)
    : M World CycleGAN :=
  c <- construct dev prefix learning_rate beta1 train ;;
  resume c prefix train ;;
  ret c.

Definition set_input (real_A' real_B' : Tensor) : M State unit :=
  dev <- getattr device ;;
  a <- liftW (tensor_to dev real_A') ;;
  setattr (set_real_A (Some a)) ;;
  dev <- getattr device ;;
  b <- liftW (tensor_to dev real_B') ;;
  setattr (set_real_B (Some b)).

Definition forward : M State unit :=
  genA <- getattr GenA ;;
  x <- getattr real_A ;;
  y <- liftW (call_net genA x) ;;
  setattr (set_fake_B (Some y)) ;;
  genB <- getattr GenB ;;
  x <- getattr fake_B ;;
  y <- liftW (call_net genB x) ;;
  setattr (set_new_A (Some y)) ;;
  genB <- getattr GenB ;;
  x <- getattr real_B ;;
  y <- liftW (call_net genB x) ;;
  setattr (set_fake_A (Some y)) ;;
  genA <- getattr GenA ;;
  x <- getattr fake_A ;;
  y <- liftW (call_net genA x) ;;
  setattr (set_new_B (Some y)).

Definition backward_d (netD : Net) (real fake : option Tensor)
    : M State Tensor :=
  predict_real <- liftW (call_net netD real) ;;
  crit <- attr "criterionGAN" criterionGAN ;;
  loss_d_real <- liftW (call_gan crit predict_real (TBool true)) ;;
  detached <- liftW (detach fake) ;;
  predict_fake <- liftW (call_net netD (Some detached)) ;;
  crit <- attr "criterionGAN" criterionGAN ;;
  loss_d_fake <- liftW (call_gan crit predict_fake (TBool false)) ;;
  sum <- liftW (tensor_add loss_d_real loss_d_fake) ;;
  loss_d <- liftW (tensor_mul sum 0.5%float) ;;
  liftW (backward loss_d) ;;
  ret loss_d.

(** The four loss attributes read on line 90 are the tensors assigned on
    lines 81 to 87; they are kept in local names here. *)
Definition backward_g : M State unit :=
  crit <- attr "criterionGAN" criterionGAN ;;
  disA <- attr "DisA" DisA ;;
  x <- getattr fake_B ;;
  pred <- liftW (call_net disA x) ;;
  genA_loss <- liftW (call_gan crit pred (TBool true)) ;;
  setattr (set_loss_genA (Some (VTensor genA_loss))) ;;
  crit <- attr "criterionGAN" criterionGAN ;;
  disB <- attr "DisB" DisB ;;
  x <- getattr fake_A ;;
  pred <- liftW (call_net disB x) ;;
  genB_loss <- liftW (call_gan crit pred (TBool true)) ;;
  setattr (set_loss_genB (Some (VTensor genB_loss))) ;;
  (* Forward cycle loss *)
  crit <- attr "criterionCycle" criterionCycle ;;
  x <- getattr new_A ;;
  y <- getattr real_A ;;
  l1 <- liftW (call_l1 crit x y) ;;
  lam <- getattr lambda_A ;;
  cycle_A <- liftW (tensor_mul l1 lam) ;;
  setattr (set_loss_cycle_A (Some (VTensor cycle_A))) ;;
  (* Backward cycle loss *)
  crit <- attr "criterionCycle" criterionCycle ;;
  x <- getattr new_B ;;
  y <- getattr real_B ;;
  l1 <- liftW (call_l1 crit x y) ;;
  lam <- getattr lambda_B ;;
  cycle_B <- liftW (tensor_mul l1 lam) ;;
  setattr (set_loss_cycle_B (Some (VTensor cycle_B))) ;;
  (* combined loss *)
  s1 <- liftW (tensor_add genA_loss genB_loss) ;;
  s2 <- liftW (tensor_add s1 cycle_A) ;;
  total <- liftW (tensor_add s2 cycle_B) ;;
  setattr (set_loss_G (Some (VTensor total))) ;;
  liftW (backward total).

(** The static method. *)
Definition set_requires_grad (nets : list (option Net))
    (requires_grad : bool) : M World unit :=
  for_each nets (fun net =>
    match net with
    | Some n => for_each (n_params n) (set_flag requires_grad)
    | None => ret tt
    end).

Definition train : M State unit :=
  (* forward *)
  forward ;;
  (* GenA and GenB *)
  disA <- attr "DisA" DisA ;;
  disB <- attr "DisB" DisB ;;
  liftW (set_requires_grad [Some disA; Some disB] false) ;;
  og <- attr "optimizer_g" optimizer_g ;;
  liftW (zero_grad og) ;;
  backward_g ;;
  og <- attr "optimizer_g" optimizer_g ;;
  liftW (step og) ;;
  (* DisA and DisB *)
  disA <- attr "DisA" DisA ;;
  disB <- attr "DisB" DisB ;;
  liftW (set_requires_grad [Some disA; Some disB] true) ;;
  od <- attr "optimizer_d" optimizer_d ;;
  liftW (zero_grad od) ;;
  (* backward Dis A *)
  disA <- attr "DisA" DisA ;;
  real <- getattr real_B ;;
  fake <- getattr fake_B ;;
  l <- backward_d disA real fake ;;
  setattr (set_loss_disA (Some (VTensor l))) ;;
  (* backward Dis B *)
  disB <- attr "DisB" DisB ;;
  real <- getattr real_A ;;
  fake <- getattr fake_A ;;
  l <- backward_d disB real fake ;;
  setattr (set_loss_disB (Some (VTensor l))) ;;
  od <- attr "optimizer_d" optimizer_d ;;
  liftW (step od).

(** [with torch.no_grad(): body]: tracking is switched off for the body and
    switched back on leaving it, by return or by exception. *)
Definition no_grad {A} (body : M State A) : M State A :=
  fun s =>
    let prev := grad_enabled (world s) in
    let leave s' :=
      {| self := self s'; world := set_grad_enabled prev (world s') |} in
    match body {| self := self s;
                  world := set_grad_enabled false (world s) |} with
    | Ok a s' => Ok a (leave s')
    | Raise e s' => Raise e (leave s')
    end.

Definition test : M State unit :=
  no_grad forward.

(** ["{}".format(n)] for an integer. *)
Definition format_int (n : Z) : string :=
  NilZero.string_of_int (Z.to_int n).

Definition torch_cat (ts : list Tensor) : M World Tensor :=
  match t_cat (map t_data ts) with
  | None => raise RuntimeError
  | Some d =>
      h <- record (List.concat (map t_history ts)) ;;
      ret {| t_data := d; t_history := h |}
  end.

Definition save_progress (path : string) (epoch iteration : Z)
    : M State unit :=
  x <- getattr real_A ;; a <- liftW (tensor_data x) ;;
  x <- getattr fake_A ;; b <- liftW (tensor_data x) ;;
  x <- getattr real_B ;; c <- liftW (tensor_data x) ;;
  x <- getattr fake_B ;; d <- liftW (tensor_data x) ;;
  img_sample <- liftW (torch_cat [a; b; c; d]) ;;
  liftW (save_image img_sample
           (path ++ format_int epoch ++ "_" ++ format_int iteration ++ ".png")) ;;
  net <- getattr GenA ;; sd <- liftW (state_dict net) ;;
  prefix <- getattr file_prefix ;;
  liftW (torch_save sd (prefix ++ "generator_a.pth")) ;;
  net <- getattr GenB ;; sd <- liftW (state_dict net) ;;
  prefix <- getattr file_prefix ;;
  liftW (torch_save sd (prefix ++ "generator_b.pth")) ;;
  net <- attr "DisA" DisA ;; sd <- liftW (state_dict net) ;;
  prefix <- getattr file_prefix ;;
  liftW (torch_save sd (prefix ++ "discriminator_a.pth")) ;;
  net <- attr "DisB" DisB ;; sd <- liftW (state_dict net) ;;
  prefix <- getattr file_prefix ;;
  liftW (torch_save sd (prefix ++ "discriminator_b.pth")) ;;
  tracker <- getattr epoch_tracker ;;
  liftW (tracker_write tracker epoch iteration).

(** ** Vocabulary of the statements

    Reading a network as a function, the tensors the methods build, the
    relations they keep, and the life of a controller object. *)

(** [net(x)] on the content of a tensor, with the weights the store holds. *)
Definition net_apply (st : ParamId -> Param) (net : Net) (x : Data)
    : option Data :=
  arch_forward (n_arch net) (weights st net) x.

(** The leaves of the non-null networks of a list, in iteration order. *)
Definition params_of (nets : list (option Net)) : list ParamId :=
  flat_map (fun net => match net with
                       | Some n => n_params n
                       | None => []
                       end) nets.

(** Two worlds that differ at most in the store and the log. *)
Definition same_env (w w' : World) : Prop :=
  next_param w' = next_param w /\ optim w' = optim w /\
  next_optim w' = next_optim w /\ files w' = files w /\
  writable w' = writable w /\ grad_enabled w' = grad_enabled w /\
  rng w' = rng w.

(** The tensor a network call returns for the input [x] when it computes the
    content [d]: its history is the network's trainable leaves followed by the
    input's history, or nothing when tracking is off. *)
Definition out_tensor (tracking : bool) (st : ParamId -> Param) (net : Net)
    (x : Tensor) (d : Data) : Tensor :=
  {| t_data := d;
     t_history := if tracking then trainable st net ++ t_history x else [] |}.

(** A relation between the state before a call and the state it ends in, by
    return or by exception. *)
Definition keeps {A} (R : State -> State -> Prop) (m : M State A) : Prop :=
  forall s, R s (final (m s)).

(** The attributes assigned in [__init__] and nowhere else. *)
Definition config (c : CycleGAN) :=
  (name c, lambda_A c, lambda_B c, is_train c, device c, file_prefix c,
   epoch_tracker c, GenA c, GenB c, DisA c, DisB c,
   criterionGAN c, criterionCycle c, criterionIdt c,
   optimizer_g c, optimizer_d c, optimizers c).

Definition same_config (s s' : State) : Prop :=
  config (self s') = config (self s).

(** The two input batches. *)
Definition same_inputs (s s' : State) : Prop :=
  real_A (self s') = real_A (self s) /\ real_B (self s') = real_B (self s).

(** The networks [construct] allocates from the world [w], and the object it
    returns. *)
Definition fresh_GenA (w : World) : Net :=
  {| n_arch := Generator;
     n_params := seq (next_param w) (arch_size Generator) |}.

Definition fresh_GenB (w : World) : Net :=
  {| n_arch := Generator;
     n_params := seq (next_param w + arch_size Generator)
                   (arch_size Generator) |}.

Definition fresh_DisA (w : World) : Net :=
  {| n_arch := Discriminator;
     n_params := seq (next_param w + arch_size Generator
                      + arch_size Generator) (arch_size Discriminator) |}.

Definition fresh_DisB (w : World) : Net :=
  {| n_arch := Discriminator;
     n_params := seq (next_param w + arch_size Generator
                      + arch_size Generator + arch_size Discriminator)
                   (arch_size Discriminator) |}.

Definition marker_found (w : World) (prefix : string) : bool :=
  match files w (prefix ++ "epoch.txt") with
  | Some _ => true
  | None => false
  end.

Definition constructed (dev : Device) (prefix : string) (train : bool)
    (w : World) : CycleGAN :=
  let c := inference_object dev prefix
             {| et_file := prefix ++ "epoch.txt";
                file_exists := marker_found w prefix |}
             (fresh_GenA w) (fresh_GenB w) train in
  if train
  then training_object c (fresh_DisA w) (fresh_DisB w)
         (next_optim w) (S (next_optim w))
  else c.

(** The state dict the file at [path] holds for the network [net]: the file
    exists, decodes, and fits. *)
Definition checkpoint (w : World) (net : Net) (path : string)
    : option (list Data) :=
  match files w path with
  | Some b =>
      match unpickle b with
      | Some sd => if accepts net sd then Some sd else None
      | None => None
      end
  | None => None
  end.

(** The tensor [x.to(dev)]: [x] itself when it is on the device, a copy
    otherwise. *)
Definition moved (tracking : bool) (dev : Device) (x : Tensor) : Tensor :=
  if on_device dev (t_data x)
  then x
  else {| t_data := to_device dev (t_data x);
          t_history := if tracking then t_history x else [] |}.

(** What [__init__] needs of its hyper-parameters: nothing without
    [train], and with it what the two Adam optimizers check. *)
Definition hyper_ok (train : bool) (lr beta1 : float) : bool :=
  negb train ||
  (in_range lr (beta1, 0.999%float) &&
   negb (Nat.eqb (arch_size Generator + arch_size Generator) 0) &&
   negb (Nat.eqb (arch_size Discriminator + arch_size Discriminator) 0)).

(** Nothing learned has moved: parameters, optimizers and stored losses. *)
Definition quiet (s s' : State) : Prop :=
  store (world s') = store (world s) /\
  optim (world s') = optim (world s) /\
  loss_disA (self s') = loss_disA (self s) /\
  loss_disB (self s') = loss_disB (self s) /\
  loss_cycle_A (self s') = loss_cycle_A (self s) /\
  loss_cycle_B (self s') = loss_cycle_B (self s) /\
  loss_genA (self s') = loss_genA (self s) /\
  loss_genB (self s') = loss_genB (self s) /\
  loss_G (self s') = loss_G (self s).

(** A client calls methods one after another on the object [__init__]
    returned, and may go on after an exception. *)
Inductive Call :=
| call_set_input (real_A' real_B' : Tensor)
| call_forward
| call_backward_d (netD : Net) (real fake : option Tensor)
| call_backward_g
| call_train
| call_test
| call_save_progress (path : string) (epoch iteration : Z)
| call_set_requires_grad (nets : list (option Net)) (flag : bool).

Definition is_set_input (c : Call) : bool :=
  match c with
  | call_set_input _ _ => true
  | _ => false
  end.

Definition run (c : Call) (s : State) : State :=
  match c with
  | call_set_input a b => final (set_input a b s)
  | call_forward => final (forward s)
  | call_backward_d netD real fake => final (backward_d netD real fake s)
  | call_backward_g => final (backward_g s)
  | call_train => final (train s)
  | call_test => final (test s)
  | call_save_progress path epoch iteration =>
      final (save_progress path epoch iteration s)
  | call_set_requires_grad nets flag =>
      final (liftW (set_requires_grad nets flag) s)
  end.

Definition run_all (calls : list Call) (s : State) : State :=
  fold_left (fun s c => run c s) calls s.

(** ** Vocabulary of the further properties *)

(** A relation between the world before a substrate operation and the world
    it ends in, and the same relation read on states. *)
Definition keepsW {A} (RW : World -> World -> Prop) (m : M World A) : Prop :=
  forall w, RW w (final (m w)).

Definition on_world (RW : World -> World -> Prop) (s s' : State) : Prop :=
  RW (world s) (world s').

(** No file has changed. *)
Definition same_files (w w' : World) : Prop :=
  files w' = files w.

(** No parameter value and no optimizer has changed. *)
Definition same_weights (w w' : World) : Prop :=
  (forall p, p_data (store w' p) = p_data (store w p)) /\
  optim w' = optim w.

(** No gradient-tracking flag has changed. *)
Definition same_flags (w w' : World) : Prop :=
  forall p, p_requires_grad (store w' p) = p_requires_grad (store w p).

Definition is_train_call (c : Call) : bool :=
  match c with
  | call_train => true
  | _ => false
  end.

Definition is_save_call (c : Call) : bool :=
  match c with
  | call_save_progress _ _ _ => true
  | _ => false
  end.

(** The file system with [b] stored at [path]. *)
Definition put_file (path : string) (b : Blob) (fs : string -> option Blob)
    : string -> option Blob :=
  fun q => if String.eqb q path then Some b else fs q.

(** The path of the sample image of [save_progress]. *)
Definition image_path (path : string) (epoch iteration : Z) : string :=
  (path ++ format_int epoch ++ "_" ++ format_int iteration ++ ".png")%string.

(** Two worlds with the same tracking mode, weights and optimizers. *)
Definition untracked (w w' : World) : Prop :=
  grad_enabled w' = grad_enabled w /\ same_weights w w'.

(** What loading weights into the leaves [l] may change: the content of
    these leaves, and the log, by reads only. *)
Definition loads (l : list ParamId) (w w' : World) : Prop :=
  files w' = files w /\ optim w' = optim w /\
  next_param w' = next_param w /\ next_optim w' = next_optim w /\
  writable w' = writable w /\ grad_enabled w' = grad_enabled w /\
  (forall p, p_grad (store w' p) = p_grad (store w p) /\
             p_requires_grad (store w' p) = p_requires_grad (store w p)) /\
  (forall p, ~ In p l -> store w' p = store w p) /\
  exists paths, log w' = log w ++ map EvRead paths.

(** The leaves of the networks of a controller. *)
Definition all_params (c : CycleGAN) : list ParamId :=
  n_params (GenA c) ++ n_params (GenB c) ++ params_of [DisA c; DisB c].

(** The optimizer [Adam(params, lr=lr, betas=(beta1, 0.999))] before its
    first step. *)
Definition fresh_adam (params : list ParamId) (lr beta1 : float)
    : Optimizer :=
  {| o_params := params; o_lr := lr; o_betas := (beta1, 0.999%float);
     o_state := adam_init |}.

(** Two worlds with the same tracking mode and the same allocations. *)
Definition same_mode (w w' : World) : Prop :=
  grad_enabled w' = grad_enabled w /\
  next_param w' = next_param w /\ next_optim w' = next_optim w.

Definition sets_flags (c : Call) : bool :=
  match c with
  | call_train | call_set_requires_grad _ _ => true
  | _ => false
  end.

(** A string in which the character [c] does not occur. *)
Fixpoint free_of (c : Ascii.ascii) (s : string) : Prop :=
  match s with
  | EmptyString => True
  | String x s' => x <> c /\ free_of c s'
  end.

End Controller.

(** * A small substrate, to run the controller

    Tensors hold one float, a network adds its weights to its input, a
    generator has two weights (initially 1.0 each) and a discriminator one
    (initially 0.5); files hold lists of floats. *)

#[local] Set Warnings "-inexact-float".

Definition toy : Substrate := {|
  Data := float;
  Blob := list float;
  Device := unit;
  Rng := nat;
  AdamState := nat;
  on_device := fun _ _ => true;
  to_device := fun _ x => x;
  t_add := PrimFloat.add;
  t_mul := PrimFloat.mul;
  t_cat := fun l => Some (fold_right PrimFloat.add 0%float l);
  arch_size := fun a => match a with Generator => 2 | Discriminator => 1 end;
  init_weight := fun a _ _ =>
    match a with Generator => 1.0%float | Discriminator => 0.5%float end;
  next_rng := fun _ r => S r;
  arch_forward := fun _ ws x => Some (fold_right PrimFloat.add x ws);
  gan_criterion := fun x y => Some (PrimFloat.abs (PrimFloat.sub x y));
  l1_criterion := fun x y => PrimFloat.abs (PrimFloat.sub x y);
  grad_wrt := fun _ _ _ => 1.0%float;
  grad_acc := fun g x =>
    match g with Some y => PrimFloat.add y x | None => x end;
  adam_init := 0;
  adam_data := fun lr _ _ _ x g => PrimFloat.sub x (PrimFloat.mul lr g);
  adam_next := fun _ _ n _ => S n;
  pickle := fun sd => sd;
  unpickle := fun b => Some b;
  png := fun x => [x];
  marker := fun _ _ => [];
  fits := fun _ _ => true;
  to_device_on := fun _ _ _ => eq_refl
|}.

Section ToyStates.

#[local] Existing Instance toy.

(** An empty world: no file, every path writable, tracking on. *)
Definition toy_world : @World toy :=
  {| store := fun _ => {| p_data := 0%float; p_grad := None;
                          p_requires_grad := false |};
     next_param := 0;
     optim := fun _ => {| o_params := []; o_lr := 0%float;
                          o_betas := (0%float, 0%float); o_state := 0 |};
     next_optim := 0;
     files := fun _ => None;
     writable := fun _ => true;
     grad_enabled := true;
     rng := 0;
     log := [] |}.

(** The state [__init__] leaves: the object it returns and the world it
    ends in. *)
Definition toy_new (train : bool) : @State toy :=
  {| self := @constructed toy tt "run/" train toy_world;
     world := final (@__init__ toy unit tt tt "run/" 0.0002%float 0.5%float
                       train toy_world) |}.

Definition toy_tensor (x : float) : @Tensor toy :=
  {| t_data := x; t_history := [] |}.

(** A training-mode controller with the batch (1.0, 3.0) stored. *)
Definition toy_batch : @State toy :=
  final (set_input (toy_tensor 1.0%float) (toy_tensor 3.0%float)
           (toy_new true)).

Definition toy_GenB : Net := {| n_arch := Generator; n_params := [2; 3] |}.
Definition toy_DisA : Net := {| n_arch := Discriminator; n_params := [4] |}.
Definition toy_DisB : Net := {| n_arch := Discriminator; n_params := [5] |}.

(** The samples a forward pass stores for that batch. *)
Definition toy_fake_B : @Tensor toy :=
  {| t_data := 3.0%float; t_history := [0; 1] |}.
Definition toy_fake_A : @Tensor toy :=
  {| t_data := 5.0%float; t_history := [2; 3] |}.
Definition toy_new_A : @Tensor toy :=
  {| t_data := 5.0%float; t_history := [2; 3; 0; 1] |}.
Definition toy_new_B : @Tensor toy :=
  {| t_data := 7.0%float; t_history := [0; 1; 2; 3] |}.

Definition toy_calls : list (@Call toy) :=
  [call_set_input (toy_tensor 1.0%float) (toy_tensor 3.0%float); call_forward].


(** The training-mode controller after a forward pass on its batch, and the
    same inside a no-grad scope. *)
Definition toy_passed : @State toy := run_all toy_calls (toy_new true).

Definition toy_untracked : @State toy :=
  {| self := self toy_batch;
     world := set_grad_enabled false (world toy_batch) |}.

End ToyStates.

(** A substrate whose networks reject an input of 4.0 or more, and a
    training-mode controller on it with the batch (0.0, 5.0) stored. *)
Definition picky : Substrate := {|
  Data := float;
  Blob := list float;
  Device := unit;
  Rng := nat;
  AdamState := nat;
  on_device := fun _ _ => true;
  to_device := fun _ x => x;
  t_add := PrimFloat.add;
  t_mul := PrimFloat.mul;
  t_cat := fun l => Some (fold_right PrimFloat.add 0%float l);
  arch_size := fun a => match a with Generator => 2 | Discriminator => 1 end;
  init_weight := fun a _ _ =>
    match a with Generator => 1.0%float | Discriminator => 0.5%float end;
  next_rng := fun _ r => S r;
  arch_forward := fun _ ws x =>
    if PrimFloat.ltb x 4.0%float
    then Some (fold_right PrimFloat.add x ws)
    else None;
  gan_criterion := fun x y => Some (PrimFloat.abs (PrimFloat.sub x y));
  l1_criterion := fun x y => PrimFloat.abs (PrimFloat.sub x y);
  grad_wrt := fun _ _ _ => 1.0%float;
  grad_acc := fun g x =>
    match g with Some y => PrimFloat.add y x | None => x end;
  adam_init := 0;
  adam_data := fun lr _ _ _ x g => PrimFloat.sub x (PrimFloat.mul lr g);
  adam_next := fun _ _ n _ => S n;
  pickle := fun sd => sd;
  unpickle := fun b => Some b;
  png := fun x => [x];
  marker := fun _ _ => [];
  fits := fun _ _ => true;
  to_device_on := fun _ _ _ => eq_refl
|}.

Section PickyStates.

#[local] Existing Instance picky.

Definition picky_world : World :=
  {| store := fun _ => {| p_data := 0%float; p_grad := None;
                          p_requires_grad := false |};
     next_param := 0;
     optim := fun _ => {| o_params := []; o_lr := 0%float;
                          o_betas := (0%float, 0%float); o_state := 0 |};
     next_optim := 0;
     files := fun _ => None;
     writable := fun _ => true;
     grad_enabled := true;
     rng := 0;
     log := [] |}.

Definition picky_tensor (x : float) (h : list ParamId) : Tensor :=
  {| t_data := x; t_history := h |}.

Definition picky_batch : State :=
  final (set_input (picky_tensor 0%float []) (picky_tensor 5.0%float [])
           {| self := constructed tt "run/" true picky_world;
              world := final (@__init__ picky unit tt tt "run/" 0.0002%float
                                0.5%float true picky_world) |}).

End PickyStates.

(** * Properties *)

Section Properties.

Context {T : Substrate}.

Lemma mem_In (p : ParamId) (l : list ParamId) : mem p l = true <-> In p l.
Proof.
  unfold mem. rewrite existsb_exists. split.
  - intros [q [Hq E]]. apply Nat.eqb_eq in E. now subst.
  - intros H. exists p. split; [assumption | apply Nat.eqb_refl].
Qed.

Lemma mem_false (p : ParamId) (l : list ParamId) :
  mem p l = false <-> ~ In p l.
Proof.
  rewrite <- mem_In. destruct (mem p l); split; congruence.
Qed.

Lemma mem_app (p : ParamId) (l1 l2 : list ParamId) :
  mem p (l1 ++ l2) = mem p l1 || mem p l2.
Proof. unfold mem. apply existsb_app. Qed.

Lemma mem_cons (p q : ParamId) (l : list ParamId) :
  mem p (q :: l) = Nat.eqb p q || mem p l.
Proof. reflexivity. Qed.

Lemma same_env_refl (w : World) : same_env w w.
Proof. repeat split. Qed.

Lemma same_env_trans (w1 w2 w3 : World) :
  same_env w1 w2 -> same_env w2 w3 -> same_env w1 w3.
Proof.
  unfold same_env. intros H1 H2.
  repeat match goal with H : _ /\ _ |- _ => destruct H end.
  repeat split; congruence.
Qed.

(** *** set_requires_grad *)

Lemma set_flag_loop (flag : bool) (l : list ParamId) (w : World) :
  exists w',
    for_each l (set_flag flag) w = Ok tt w' /\
    (forall p, store w' p = if mem p l then with_flag flag p (store w p)
                            else store w p) /\
    log w' = log w ++ map (fun p => EvRequiresGrad p flag) l /\
    same_env w w'.
Proof.
  revert w. induction l as [| q l IH]; intros w.
  - exists w. simpl. rewrite app_nil_r. repeat split.
  - destruct (IH (set_store (update [q] (with_flag flag) (store w))
                    (set_log (log w ++ [EvRequiresGrad q flag]) w)))
      as [w' [Hrun [Hst [Hlog Henv]]]].
    exists w'. split; [exact Hrun |]. split; [| split].
    + intros p. rewrite Hst, mem_cons. simpl. unfold update. simpl.
      rewrite orb_false_r.
      destruct (Nat.eqb p q), (mem p l); reflexivity.
    + rewrite Hlog. simpl. now rewrite <- app_assoc.
    + exact Henv.
Qed.

Lemma set_requires_grad_run (nets : list (option Net)) (flag : bool)
    (w : World) :
  exists w',
    set_requires_grad nets flag w = Ok tt w' /\
    (forall p, store w' p = if mem p (params_of nets)
                            then with_flag flag p (store w p)
                            else store w p) /\
    log w' = log w ++ map (fun p => EvRequiresGrad p flag) (params_of nets) /\
    same_env w w'.
Proof.
  revert w. induction nets as [| net nets IH]; intros w.
  - exists w. simpl. rewrite app_nil_r. repeat split.
  - unfold set_requires_grad. simpl. unfold bind at 1.
    destruct net as [n |].
    + destruct (set_flag_loop flag (n_params n) w)
        as [w1 [Hrun1 [Hst1 [Hlog1 Henv1]]]].
      rewrite Hrun1.
      destruct (IH w1) as [w' [Hrun [Hst [Hlog Henv]]]].
      exists w'. split; [exact Hrun |]. split; [| split].
      * intros p. rewrite Hst, Hst1, mem_app.
        destruct (mem p (n_params n)), (mem p (params_of nets)); reflexivity.
      * rewrite Hlog, Hlog1, map_app. now rewrite <- app_assoc.
      * eapply same_env_trans; eassumption.
    + destruct (IH w) as [w' [Hrun [Hst [Hlog Henv]]]].
      exists w'. split; [exact Hrun |]. now split.
Qed.

(** C8. For every list of networks and every flag, [set_requires_grad] returns
    normally with no value, skipping null entries; afterwards every parameter
    of every non-null network of the list has gradient tracking equal to the
    flag, no parameter's value or accumulated gradient has changed, and a
    parameter of no listed network is untouched. *)
Theorem set_requires_grad_sets_every_flag
    (nets : list (option Net)) (flag : bool) (w : World) :
  exists w',
    set_requires_grad nets flag w = Ok tt w' /\
    (forall n p, In (Some n) nets -> In p (n_params n) ->
       p_requires_grad (store w' p) = flag) /\
    (forall p, p_data (store w' p) = p_data (store w p) /\
               p_grad (store w' p) = p_grad (store w p)) /\
    (forall p, (forall n, In (Some n) nets -> ~ In p (n_params n)) ->
       store w' p = store w p) /\
    same_env w w'.
Proof.
  destruct (set_requires_grad_run nets flag w) as [w' [Hrun [Hst [_ Henv]]]].
  exists w'. split; [exact Hrun |].
  assert (Hin : forall p, In p (params_of nets) <->
                  exists n, In (Some n) nets /\ In p (n_params n)).
  { intros p. unfold params_of. rewrite in_flat_map. split.
    - intros [[n |] [H1 H2]]; [now exists n | contradiction].
    - intros [n [H1 H2]]. now exists (Some n). }
  repeat split.
  - intros n p Hn Hp. rewrite Hst.
    assert (E : mem p (params_of nets) = true).
    { apply mem_In, Hin. now exists n. }
    now rewrite E.
  - rewrite Hst. now destruct (mem p (params_of nets)).
  - rewrite Hst. now destruct (mem p (params_of nets)).
  - intros p Hp. rewrite Hst.
    assert (E : mem p (params_of nets) = false).
    { apply mem_false. rewrite Hin. intros [n [H1 H2]]. exact (Hp n H1 H2). }
    now rewrite E.
  - apply Henv.
  - apply Henv.
  - apply Henv.
  - apply Henv.
  - apply Henv.
  - apply Henv.
  - apply Henv.
Qed.

(** Stepping through a method: the monad's plumbing is unfolded, projections
    of built records are computed, and the calls into the substrate stay
    folded until a lemma rewrites them. *)
Ltac proj :=
  cbn [self world
       store next_param optim next_optim files writable grad_enabled rng log
       name lambda_A lambda_B is_train device file_prefix epoch_tracker
       GenA GenB real_A real_B fake_A fake_B new_A new_B DisA DisB
       criterionGAN criterionCycle criterionIdt
       optimizer_g optimizer_d optimizers
       loss_disA loss_disB loss_cycle_A loss_cycle_B loss_genA loss_genB loss_G
       set_real_A set_real_B set_fake_A set_fake_B set_new_A set_new_B
       set_loss_disA set_loss_disB set_loss_cycle_A set_loss_cycle_B
       set_loss_genA set_loss_genB set_loss_G
       set_store set_optim set_files set_grad_enabled set_log
       et_file file_exists n_arch n_params t_data t_history
       p_data p_grad p_requires_grad o_params o_lr o_betas o_state
       final raised] in *.

Ltac mstep :=
  cbv beta iota delta [bind getattr gets setattr modify liftW ret attr raise];
  proj.

(** *** forward *)

Lemma call_net_run (net : Net) (x : Tensor) (d : Data) (w : World) :
  net_apply (store w) net (t_data x) = Some d ->
  call_net net (Some x) w =
    Ok (out_tensor (grad_enabled w) (store w) net x d)
       (set_log (log w ++ [EvCall net x (grad_enabled w)]) w).
Proof.
  unfold net_apply. intros H.
  unfold call_net, bind, gets, emit, modify, record, ret. simpl.
  rewrite H. reflexivity.
Qed.

Ltac run_call H :=
  match goal with
  | |- context [call_net ?n (Some ?x) ?w] =>
      rewrite (@call_net_run n x _ w H)
  end.

Lemma forward_run (s : State) (rA rB : Tensor) (a b c d : Data) :
  real_A (self s) = Some rA ->
  real_B (self s) = Some rB ->
  let w := world s in
  let st := store w in
  let tr := grad_enabled w in
  let gA := GenA (self s) in
  let gB := GenB (self s) in
  net_apply st gA (t_data rA) = Some a ->
  net_apply st gB a = Some b ->
  net_apply st gB (t_data rB) = Some c ->
  net_apply st gA c = Some d ->
  let fB := out_tensor tr st gA rA a in
  let nA := out_tensor tr st gB fB b in
  let fA := out_tensor tr st gB rB c in
  let nB := out_tensor tr st gA fA d in
  forward s =
    Ok tt {| self := set_new_B (Some nB) (set_fake_A (Some fA)
                       (set_new_A (Some nA) (set_fake_B (Some fB) (self s))));
             world := set_log (log w ++ [EvCall gA rA tr; EvCall gB fB tr;
                                         EvCall gB rB tr; EvCall gA fA tr]) w |}.
Proof.
  destruct s as [c0 w0]. cbn [self world]. intros HA HB Ha Hb Hc Hd.
  unfold forward. mstep.
  rewrite HA. run_call Ha. mstep.
  run_call Hb. mstep.
  rewrite HB. run_call Hc. mstep.
  run_call Hd. mstep.
  unfold set_log. proj. repeat rewrite <- app_assoc. reflexivity.
Qed.

(** *** Relations every method keeps

    Established once per building block of the monad. *)

Section Frames.

Variable R : State -> State -> Prop.
Hypothesis R_refl : forall s, R s s.
Hypothesis R_trans : forall s1 s2 s3, R s1 s2 -> R s2 s3 -> R s1 s3.
(* the relation does not look at the world *)
Hypothesis R_world : forall s w, R s {| self := self s; world := w |}.

Lemma keeps_ret {A} (a : A) : keeps R (ret a).
Proof. intros s. apply R_refl. Qed.

Lemma keeps_raise {A} (e : exn) : keeps R (@raise State A e).
Proof. intros s. apply R_refl. Qed.

Lemma keeps_getattr {A} (f : CycleGAN -> A) : keeps R (getattr f).
Proof. intros s. apply R_refl. Qed.

Lemma keeps_attr {A} (x : string) (f : CycleGAN -> option A) :
  keeps R (attr x f).
Proof. intros s. unfold attr. destruct (f (self s)); apply R_refl. Qed.

Lemma keeps_liftW {A} (m : M World A) : keeps R (liftW m).
Proof.
  intros s. unfold liftW. destruct (m (world s)); apply R_world.
Qed.

Lemma keeps_liftW_when {A} (m : M World A) :
  (forall s, R s {| self := self s; world := final (m (world s)) |}) ->
  keeps R (liftW m).
Proof.
  intros H s. specialize (H s). unfold liftW.
  destruct (m (world s)); exact H.
Qed.

Lemma keeps_bind {A B} (m : M State A) (k : A -> M State B) :
  keeps R m -> (forall a, keeps R (k a)) -> keeps R (bind m k).
Proof.
  intros Hm Hk s. unfold bind. specialize (Hm s).
  destruct (m s) as [a s' | e s']; cbn [final] in *.
  - eapply R_trans; [exact Hm | apply Hk].
  - exact Hm.
Qed.

Lemma keeps_setattr (f : CycleGAN -> CycleGAN) :
  (forall s, R s {| self := f (self s); world := world s |}) ->
  keeps R (setattr f).
Proof. intros H s. apply H. Qed.

Lemma keeps_no_grad {A} (m : M State A) : keeps R m -> keeps R (no_grad m).
Proof.
  intros Hm s. unfold no_grad.
  specialize (Hm {| self := self s;
                    world := set_grad_enabled false (world s) |}).
  destruct (m _) as [a s' | e s']; cbn [final] in *;
    (eapply R_trans; [apply (R_world s) |]);
    (eapply R_trans; [exact Hm |]); apply (R_world s').
Qed.

End Frames.

Lemma same_config_refl s : same_config s s.
Proof. reflexivity. Qed.

Lemma same_config_trans s1 s2 s3 :
  same_config s1 s2 -> same_config s2 s3 -> same_config s1 s3.
Proof. unfold same_config. congruence. Qed.

Lemma same_config_world s w :
  same_config s {| self := self s; world := w |}.
Proof. reflexivity. Qed.

Lemma same_inputs_refl s : same_inputs s s.
Proof. split; reflexivity. Qed.

Lemma same_inputs_trans s1 s2 s3 :
  same_inputs s1 s2 -> same_inputs s2 s3 -> same_inputs s1 s3.
Proof. unfold same_inputs. intros [? ?] [? ?]. split; congruence. Qed.

Lemma same_inputs_world s w :
  same_inputs s {| self := self s; world := w |}.
Proof. split; reflexivity. Qed.

Ltac frame_with Hrefl Htrans Hworld :=
  repeat match goal with
    | |- keeps _ (bind _ _) => eapply keeps_bind; [exact Htrans | | intro]
    | |- keeps _ (ret _) => eapply keeps_ret; exact Hrefl
    | |- keeps _ (raise _) => eapply keeps_raise; exact Hrefl
    | |- keeps _ (getattr _) => eapply keeps_getattr; exact Hrefl
    | |- keeps _ (attr _ _) => eapply keeps_attr; exact Hrefl
    | |- keeps _ (liftW _) => eapply keeps_liftW; exact Hworld
    | |- keeps _ (no_grad _) =>
        eapply keeps_no_grad; [exact Htrans | exact Hworld |]
    | |- keeps _ (setattr _) =>
        eapply keeps_setattr; intro; first [reflexivity | split; reflexivity]
    end.

Ltac frame_config :=
  frame_with same_config_refl same_config_trans same_config_world.

Ltac frame_inputs :=
  frame_with same_inputs_refl same_inputs_trans same_inputs_world.

Lemma set_input_keeps_config a b : keeps same_config (set_input a b).
Proof. unfold set_input. frame_config. Qed.

Lemma forward_keeps_config : keeps same_config forward.
Proof. unfold forward. frame_config. Qed.

Lemma backward_d_keeps_config netD real fake :
  keeps same_config (backward_d netD real fake).
Proof. unfold backward_d. frame_config. Qed.

Lemma backward_g_keeps_config : keeps same_config backward_g.
Proof. unfold backward_g. frame_config. Qed.

Lemma train_keeps_config : keeps same_config train.
Proof.
  unfold train. frame_config;
    first [apply forward_keeps_config | apply backward_g_keeps_config
          | apply backward_d_keeps_config].
Qed.

Lemma test_keeps_config : keeps same_config test.
Proof. unfold test. frame_config. apply forward_keeps_config. Qed.

Lemma save_progress_keeps_config path epoch iteration :
  keeps same_config (save_progress path epoch iteration).
Proof. unfold save_progress. frame_config. Qed.

Lemma forward_keeps_inputs : keeps same_inputs forward.
Proof. unfold forward. frame_inputs. Qed.

Lemma backward_d_keeps_inputs netD real fake :
  keeps same_inputs (backward_d netD real fake).
Proof. unfold backward_d. frame_inputs. Qed.

Lemma backward_g_keeps_inputs : keeps same_inputs backward_g.
Proof. unfold backward_g. frame_inputs. Qed.

Lemma train_keeps_inputs : keeps same_inputs train.
Proof.
  unfold train. frame_inputs;
    first [apply forward_keeps_inputs | apply backward_g_keeps_inputs
          | apply backward_d_keeps_inputs].
Qed.

Lemma test_keeps_inputs : keeps same_inputs test.
Proof. unfold test. frame_inputs. apply forward_keeps_inputs. Qed.

Lemma save_progress_keeps_inputs path epoch iteration :
  keeps same_inputs (save_progress path epoch iteration).
Proof. unfold save_progress. frame_inputs. Qed.

(** *** Construction *)

Lemma adam_accepts_seq (a n b m : nat) (lr : float) (betas : float * float) :
  adam_accepts (seq a n ++ seq b m) lr betas =
    in_range lr betas && negb (Nat.eqb (n + m) 0).
Proof. unfold adam_accepts. now rewrite length_app, !length_seq. Qed.

Ltac fresh_leaf p :=
  repeat match goal with
    | |- context [mem p (seq ?a ?n)] =>
        let E := fresh "E" in
        destruct (mem p (seq a n)) eqn:E;
        [try (apply mem_In, in_seq in E; lia) |]
    end.

Lemma construct_run (dev : Device) (prefix : string) (lr b1 : float)
    (train : bool) (w : World) :
  exists w1,
    construct dev prefix lr b1 train w =
      (if hyper_ok train lr b1
       then Ok (constructed dev prefix train w) w1
       else Raise ValueError w1)
    /\ files w1 = files w /\ log w1 = log w
    /\ (forall p, p < next_param w -> store w1 p = store w p).
Proof.
  unfold construct, constructed, hyper_ok. mstep.
  unfold new_tracker, new_net, new_adam. mstep.
  destruct train; cbn [negb orb]; unfold inference_object; mstep.
  - rewrite !adam_accepts_seq.
    destruct (in_range lr (b1, 0.999%float)); cbn [andb].
    2: { eexists; (split; [reflexivity |]); proj;
         (split; [reflexivity |]); (split; [reflexivity |]);
         intros p Hp; fresh_leaf p; reflexivity. }
    destruct (Nat.eqb (arch_size Generator + arch_size Generator) 0);
      cbn [negb andb].
    { eexists; (split; [reflexivity |]); proj;
      (split; [reflexivity |]); (split; [reflexivity |]);
      intros p Hp; fresh_leaf p; reflexivity. }
    mstep.
    destruct (Nat.eqb (arch_size Discriminator + arch_size Discriminator) 0);
      cbn [negb]; mstep;
      eexists; (split; [reflexivity |]); proj;
      (split; [reflexivity |]); (split; [reflexivity |]);
      intros p Hp; fresh_leaf p; reflexivity.
  - eexists; (split; [reflexivity |]); proj;
      (split; [reflexivity |]); (split; [reflexivity |]);
      intros p Hp; fresh_leaf p; reflexivity.
Qed.

Lemma load_weights_run (net : Net) (path : string) (w : World) :
  load_weights net path w =
    match checkpoint w net path with
    | Some sd =>
        Ok tt (set_store (assign (n_params net) sd (store w))
                 (set_log (log w ++ [EvRead path]) w))
    | None =>
        Raise (CheckpointLoadError path) (set_log (log w ++ [EvRead path]) w)
    end.
Proof.
  unfold load_weights, checkpoint, emit. mstep.
  destruct (files w path) as [b |]; [| reflexivity].
  destruct (unpickle b) as [sd |]; [| reflexivity].
  destruct (accepts net sd); reflexivity.
Qed.


Lemma assign_other (l : list ParamId) (sd : list Data)
    (st : ParamId -> Param) (p : ParamId) :
  ~ In p l -> assign l sd st p = st p.
Proof.
  revert sd st. induction l as [| q l IH]; intros sd st Hp; [reflexivity |].
  destruct sd as [| d sd]; [reflexivity |]. simpl.
  rewrite IH by (intros H; apply Hp; now right).
  unfold update. rewrite mem_cons. simpl.
  destruct (Nat.eqb p q) eqn:E; [| reflexivity].
  apply Nat.eqb_eq in E. subst. exfalso. apply Hp. now left.
Qed.









(** *** set_input, forward and test *)

Lemma tensor_to_run (dev : Device) (t : Tensor) (w : World) :
  tensor_to dev t w = Ok (moved (grad_enabled w) dev t) w.
Proof.
  unfold tensor_to, moved, record.
  destruct (on_device dev (t_data t)); reflexivity.
Qed.

Lemma moved_data (tr : bool) (dev : Device) (t : Tensor) :
  t_data (moved tr dev t) = to_device dev (t_data t).
Proof.
  unfold moved. destruct (on_device dev (t_data t)) eqn:E; [| reflexivity].
  symmetry. now apply to_device_on.
Qed.

Lemma set_input_run (x y : Tensor) (s : State) :
  let tr := grad_enabled (world s) in
  let dev := device (self s) in
  set_input x y s =
    Ok tt {| self := set_real_B (Some (moved tr dev y))
                       (set_real_A (Some (moved tr dev x)) (self s));
             world := world s |}.
Proof.
  destruct s as [c0 w0]. unfold set_input. mstep.
  rewrite !tensor_to_run. reflexivity.
Qed.

(** C6. After [set_input(x, y)] and [forward()], with the four network calls
    accepted, the stored samples are wired as [fake_B = GenA(real_A)],
    [new_A = GenB(fake_B) = GenB(GenA(real_A))], [fake_A = GenB(real_B)] and
    [new_B = GenA(fake_A) = GenA(GenB(real_B))], the calls are issued in that
    order, and no parameter and no optimizer has changed. *)
Theorem forward_wiring (s : State) (x y : Tensor) (a b c d : Data) :
  let st := store (world s) in
  let tr := grad_enabled (world s) in
  let dev := device (self s) in
  let gA := GenA (self s) in
  let gB := GenB (self s) in
  net_apply st gA (to_device dev (t_data x)) = Some a ->
  net_apply st gB a = Some b ->
  net_apply st gB (to_device dev (t_data y)) = Some c ->
  net_apply st gA c = Some d ->
  exists s' rA rB fB nA fA nB,
    (set_input x y ;; forward) s = Ok tt s' /\
    real_A (self s') = Some rA /\ real_B (self s') = Some rB /\
    fake_B (self s') = Some fB /\ new_A (self s') = Some nA /\
    fake_A (self s') = Some fA /\ new_B (self s') = Some nB /\
    rA = moved tr dev x /\ rB = moved tr dev y /\
    net_apply st gA (t_data rA) = Some (t_data fB) /\
    net_apply st gB (t_data fB) = Some (t_data nA) /\
    net_apply st gB (t_data rB) = Some (t_data fA) /\
    net_apply st gA (t_data fA) = Some (t_data nB) /\
    match net_apply st gA (t_data rA) with
    | Some v => net_apply st gB v
    | None => None
    end = Some (t_data nA) /\
    match net_apply st gB (t_data rB) with
    | Some v => net_apply st gA v
    | None => None
    end = Some (t_data nB) /\
    log (world s') = log (world s) ++ [EvCall gA rA tr; EvCall gB fB tr;
                                       EvCall gB rB tr; EvCall gA fA tr] /\
    store (world s') = store (world s) /\
    optim (world s') = optim (world s).
Proof.
  intros st tr dev gA gB Ha Hb Hc Hd.
  rewrite <- (moved_data tr) in Ha, Hc.
  unfold bind at 1. rewrite set_input_run.
  erewrite forward_run with (a := a) (b := b) (c := c) (d := d);
    proj; try reflexivity; try assumption.
  do 7 eexists. split; [reflexivity |]. proj.
  repeat (split; [reflexivity |]).
  fold st dev gA gB tr. cbn [out_tensor t_data].
  rewrite Ha, Hc.
  repeat (split; [assumption || reflexivity |]). reflexivity.
Qed.

Lemma quiet_refl s : quiet s s.
Proof. repeat split. Qed.

Lemma quiet_trans s1 s2 s3 : quiet s1 s2 -> quiet s2 s3 -> quiet s1 s3.
Proof.
  unfold quiet. intros H1 H2.
  repeat match goal with H : _ /\ _ |- _ => destruct H end.
  repeat split; congruence.
Qed.

Lemma call_net_quiet (net : Net) (x : option Tensor) (w : World) :
  store (final (call_net net x w)) = store w /\
  optim (final (call_net net x w)) = optim w.
Proof.
  unfold call_net. destruct x as [t |]; [| split; reflexivity].
  unfold emit, record. mstep.
  destruct (arch_forward _ _ _); split; reflexivity.
Qed.

Lemma forward_quiet : keeps quiet forward.
Proof.
  unfold forward.
  repeat match goal with
    | |- keeps _ (bind _ _) => eapply keeps_bind; [exact quiet_trans | | intro]
    | |- keeps _ (getattr _) => eapply keeps_getattr; exact quiet_refl
    | |- keeps _ (setattr _) => eapply keeps_setattr; intro; repeat split
    | |- keeps _ (liftW (call_net ?n ?x)) =>
        eapply keeps_liftW_when; intros s0;
        destruct (call_net_quiet n x (world s0)); repeat split; assumption
    end.
Qed.

Lemma test_quiet : keeps quiet test.
Proof.
  intros s. unfold test, no_grad.
  pose proof (forward_quiet {| self := self s;
                              world := set_grad_enabled false (world s) |})
    as H.
  destruct (forward _) as [u s' | e s']; exact H.
Qed.

(** C9. [test()] runs the forward pass with gradient tracking switched off
    and switches it back afterwards.  Whatever the outcome, no parameter, no
    optimizer and no stored loss changes; after [set_input], with the four
    network calls accepted, it returns with [fake_A] and [fake_B] stored,
    neither carrying a history. *)
Theorem test_forward_without_tracking (s : State) (x y : Tensor)
    (a b c d : Data) :
  let st := store (world s) in
  let dev := device (self s) in
  let gA := GenA (self s) in
  let gB := GenB (self s) in
  net_apply st gA (to_device dev (t_data x)) = Some a ->
  net_apply st gB a = Some b ->
  net_apply st gB (to_device dev (t_data y)) = Some c ->
  net_apply st gA c = Some d ->
  (forall s0, quiet s0 (final (test s0))) /\
  exists s' rA rB,
    (set_input x y ;; test) s = Ok tt s' /\
    real_A (self s') = Some rA /\ real_B (self s') = Some rB /\
    fake_B (self s') = Some {| t_data := a; t_history := [] |} /\
    fake_A (self s') = Some {| t_data := c; t_history := [] |} /\
    log (world s') =
      log (world s) ++
        [EvCall gA rA false;
         EvCall gB {| t_data := a; t_history := [] |} false;
         EvCall gB rB false;
         EvCall gA {| t_data := c; t_history := [] |} false] /\
    grad_enabled (world s') = grad_enabled (world s) /\
    store (world s') = store (world s) /\
    (forall p, In p (n_params gA) \/ In p (n_params gB) ->
       store (world s') p = store (world s) p) /\
    quiet s s'.
Proof.
  intros st dev gA gB Ha Hb Hc Hd. split; [exact test_quiet |].
  rewrite <- (moved_data (grad_enabled (world s))) in Ha, Hc.
  unfold bind at 1. rewrite set_input_run.
  unfold test, no_grad. proj.
  erewrite forward_run with (a := a) (b := b) (c := c) (d := d);
    proj; try reflexivity; try assumption.
  do 3 eexists. split; [reflexivity |]. proj.
  repeat (split; [reflexivity |]). repeat split.
Qed.

(** *** The life of a controller *)

Lemma run_keeps_config (c : Call) (s : State) : same_config s (run c s).
Proof.
  destruct c; cbn [run].
  - apply set_input_keeps_config.
  - apply forward_keeps_config.
  - apply backward_d_keeps_config.
  - apply backward_g_keeps_config.
  - apply train_keeps_config.
  - apply test_keeps_config.
  - apply save_progress_keeps_config.
  - apply keeps_liftW. exact same_config_world.
Qed.

Lemma run_keeps_inputs (c : Call) (s : State) :
  is_set_input c = false -> same_inputs s (run c s).
Proof.
  destruct c; cbn [run is_set_input]; intros H; try discriminate.
  - apply forward_keeps_inputs.
  - apply backward_d_keeps_inputs.
  - apply backward_g_keeps_inputs.
  - apply train_keeps_inputs.
  - apply test_keeps_inputs.
  - apply save_progress_keeps_inputs.
  - apply keeps_liftW. exact same_inputs_world.
Qed.

Lemma run_all_keeps_config (calls : list Call) (s : State) :
  same_config s (run_all calls s).
Proof.
  revert s. induction calls as [| c calls IH]; intros s.
  - apply same_config_refl.
  - cbn [run_all fold_left].
    apply same_config_trans with (s2 := run c s);
      [apply run_keeps_config | apply IH].
Qed.

Lemma run_all_keeps_inputs (calls : list Call) (s : State) :
  forallb (fun c => negb (is_set_input c)) calls = true ->
  same_inputs s (run_all calls s).
Proof.
  revert s. induction calls as [| c calls IH]; intros s H.
  - apply same_inputs_refl.
  - cbn [forallb] in H. apply andb_true_iff in H. destruct H as [H1 H2].
    apply negb_true_iff in H1. cbn [run_all fold_left].
    apply same_inputs_trans with (s2 := run c s);
      [apply run_keeps_inputs; exact H1 | apply (IH _ H2)].
Qed.

Lemma init_object {O : Type} (options : O) (dev : Device) (prefix : string)
    (lr b1 : float) (train : bool) (w : World) (c : CycleGAN) (w' : World) :
  __init__ options dev prefix lr b1 train w = Ok c w' ->
  c = constructed dev prefix train w.
Proof.
  destruct (construct_run dev prefix lr b1 train w) as [w1 [Hrun _]].
  unfold __init__. cbv beta iota delta [bind ret]. rewrite Hrun.
  destruct (hyper_ok train lr b1); [| discriminate].
  destruct (resume _ _ _ _); intros H; [| discriminate].
  now injection H as <- _.
Qed.

(** C7. On a controller whose lifetime has seen no [set_input] (whatever else
    was called since construction), [forward()] raises
    UninitializedInputError at its first network call and changes nothing. *)
Theorem forward_before_set_input {O : Type} (options : O) (dev : Device)
    (prefix : string) (lr b1 : float) (train : bool) (w : World)
    (c : CycleGAN) (w' : World) (calls : list Call) :
  __init__ options dev prefix lr b1 train w = Ok c w' ->
  forallb (fun c => negb (is_set_input c)) calls = true ->
  let s := run_all calls {| self := c; world := w' |} in
  real_A (self s) = None /\
  forward s = Raise UninitializedInputError s.
Proof.
  intros Hinit Hcalls s.
  assert (HA : real_A (self s) = None).
  { destruct (run_all_keeps_inputs calls {| self := c; world := w' |} Hcalls)
      as [H _].
    fold s in H. rewrite H. proj.
    rewrite (init_object _ _ _ _ _ _ _ Hinit).
    unfold constructed. now destruct train. }
  split; [exact HA |].
  destruct s as [c0 w0]. proj. unfold forward. mstep. rewrite HA.
  reflexivity.
Qed.

(** *** save_progress *)

Lemma append_cancel (p a b : string) :
  (p ++ a)%string = (p ++ b)%string -> a = b.
Proof.
  induction p as [| ch p IH]; cbn [String.append]; intros H;
    [assumption | injection H as H; now apply IH].
Qed.

Ltac case_head :=
  match goal with
  | |- context [match ?x with _ => _ end] =>
      lazymatch x with
      | context [match _ with _ => _ end] => fail
      | _ => destruct x eqn:?
      end
  end.

Lemma save_progress_without_DisA (path : string) (epoch iteration : Z)
    (s : State) :
  DisA (self s) = None ->
  raised (save_progress path epoch iteration s) = true.
Proof.
  destruct s as [c0 w0]. proj. intros HD.
  unfold save_progress, tensor_data, torch_cat, save_image, torch_save,
    state_dict, write_file, emit, record.
  repeat (mstep; try rewrite HD; try reflexivity; case_head).
Qed.

(** C10. On a controller constructed with [train=False], at any later point
    of its life, the discriminator attributes are unassigned and
    [save_progress] ends in an exception.  When the samples are present and
    the files can be written, that exception is the failed read of [DisA],
    raised after the sample image and the two generator files were written
    and before the marker is updated. *)
Theorem save_progress_fails_without_discriminators {O : Type} (options : O)
    (dev : Device) (prefix : string) (lr b1 : float) (w : World)
    (c : CycleGAN) (w' : World) (calls : list Call)
    (path : string) (epoch iteration : Z) :
  __init__ options dev prefix lr b1 false w = Ok c w' ->
  let s := run_all calls {| self := c; world := w' |} in
  let image := (path ++ format_int epoch ++ "_" ++ format_int iteration
                ++ ".png")%string in
  let ga := (prefix ++ "generator_a.pth")%string in
  let gb := (prefix ++ "generator_b.pth")%string in
  let marker_file := (prefix ++ "epoch.txt")%string in
  DisA (self s) = None /\ DisB (self s) = None /\
  et_file (epoch_tracker (self s)) = marker_file /\
  raised (save_progress path epoch iteration s) = true /\
  forall tA tfA tB tfB img,
    real_A (self s) = Some tA -> fake_A (self s) = Some tfA ->
    real_B (self s) = Some tB -> fake_B (self s) = Some tfB ->
    t_cat [t_data tA; t_data tfA; t_data tB; t_data tfB] = Some img ->
    writable (world s) image = true ->
    writable (world s) ga = true ->
    writable (world s) gb = true ->
    exists s',
      save_progress path epoch iteration s = Raise (AttributeError "DisA") s'
      /\ log (world s') =
           log (world s) ++ [EvWrite image; EvWrite ga; EvWrite gb]
      /\ files (world s') marker_file =
           if String.eqb marker_file image then Some (png img)
           else files (world s) marker_file.
Proof.
  intros Hinit s image ga gb marker_file.
  pose proof (run_all_keeps_config calls {| self := c; world := w' |}) as Hcfg.
  fold s in Hcfg. unfold same_config, config in Hcfg. proj.
  rewrite (init_object _ _ _ _ _ _ _ Hinit) in Hcfg.
  unfold constructed, inference_object in Hcfg. proj.
  injection Hcfg as _ _ _ _ _ Hprefix Htracker _ _ HDA HDB _ _ _ _ _ _.
  split; [exact HDA |]. split; [exact HDB |].
  split; [now rewrite Htracker |].
  split; [now apply save_progress_without_DisA |].
  intros tA tfA tB tfB img HrA HfA HrB HfB Hcat Himg Hga Hgb.
  destruct s as [c0 w0]. proj.
  unfold save_progress, tensor_data, torch_cat, save_image, torch_save,
    state_dict, write_file, emit, record. mstep.
  rewrite HrA. mstep. rewrite HfA. mstep. rewrite HrB. mstep.
  rewrite HfB. mstep. cbn [map t_data]. rewrite Hcat. mstep.
  fold image. rewrite Himg. mstep. rewrite Hprefix. fold ga gb.
  rewrite Hga. mstep. rewrite Hprefix. fold gb. rewrite Hgb. mstep.
  rewrite HDA.
  eexists. split; [reflexivity |]. proj.
  split; [now rewrite <- !app_assoc |].
  assert (Egb : String.eqb marker_file gb = false).
  { apply String.eqb_neq. intros E. apply append_cancel in E. discriminate. }
  assert (Ega : String.eqb marker_file ga = false).
  { apply String.eqb_neq. intros E. apply append_cancel in E. discriminate. }
  now rewrite Egb, Ega.
Qed.

(** *** backward_d *)

Lemma update_other (l : list ParamId) (f : ParamId -> Param -> Param)
    (st : ParamId -> Param) (p : ParamId) :
  ~ In p l -> update l f st p = st p.
Proof.
  intros H. unfold update. apply mem_false in H. now rewrite H.
Qed.

Lemma trainable_incl (st : ParamId -> Param) (net : Net) (p : ParamId) :
  In p (trainable st net) -> In p (n_params net).
Proof. unfold trainable. rewrite filter_In. tauto. Qed.

Lemma call_gan_label (crit : Data -> Data -> option Data) (pred : Tensor)
    (label : bool) (w : World) :
  call_gan crit pred (TBool label) w = Raise (AttributeError "size") w.
Proof. reflexivity. Qed.

Lemma backward_d_run (netD : Net) (real : Tensor) (fake : option Tensor)
    (s : State) (crit : Data -> Data -> option Data) (dr : Data) :
  let w := world s in
  criterionGAN (self s) = Some crit ->
  net_apply (store w) netD (t_data real) = Some dr ->
  backward_d netD (Some real) fake s =
    Raise (AttributeError "size")
      {| self := self s;
         world := set_log (log w ++ [EvCall netD real (grad_enabled w)]) w |}.
Proof.
  destruct s as [c0 w0]. proj. intros Hcrit Hr.
  unfold backward_d. mstep. run_call Hr. mstep. rewrite Hcrit. mstep.
  rewrite call_gan_label. reflexivity.
Qed.

Lemma backward_d_raises (netD : Net) (real fake : option Tensor) (s : State) :
  let r := backward_d netD real fake s in
  raised r = true /\ self (final r) = self s /\
  store (world (final r)) = store (world s) /\
  optim (world (final r)) = optim (world s) /\
  log (world (final r)) =
    log (world s) ++ match real with
                     | Some x => [EvCall netD x (grad_enabled (world s))]
                     | None => []
                     end.
Proof.
  destruct s as [c0 w0]. cbv zeta. proj.
  unfold backward_d, call_net, call_gan, emit, record.
  destruct real as [x |];
    repeat (mstep; rewrite ?app_nil_r; try (repeat split; reflexivity);
            case_head).
Qed.

(** C3. [backward_d] returns no loss.  On a controller constructed in
    training mode, at any later point of its life and for every
    discriminator, real batch and fake batch, the call ends in an exception
    before any loss is built: the criterion is the one [__init__] installed,
    and called on the score of [real] with the label [True] it fails on the
    size of the label.  No backward pass is run, no parameter and no
    attribute changes; the call of the discriminator on [real] is all that
    is issued. *)
Theorem backward_d_stops_at_criterion {O : Type} (options : O)
    (dev : Device) (prefix : string) (lr b1 : float) (w : World)
    (c : CycleGAN) (w' : World) (calls : list Call)
    (netD : Net) (real fake : option Tensor) :
  __init__ options dev prefix lr b1 true w = Ok c w' ->
  let s := run_all calls {| self := c; world := w' |} in
  let r := backward_d netD real fake s in
  criterionGAN (self s) = Some gan_criterion /\
  raised r = true /\ self (final r) = self s /\
  store (world (final r)) = store (world s) /\
  log (world (final r)) =
    log (world s) ++ match real with
                     | Some x => [EvCall netD x (grad_enabled (world s))]
                     | None => []
                     end /\
  forall x dr,
    real = Some x ->
    net_apply (store (world s)) netD (t_data x) = Some dr ->
    r = Raise (AttributeError "size") (final r).
Proof.
  intros Hinit s r.
  pose proof (run_all_keeps_config calls {| self := c; world := w' |}) as Hcfg.
  fold s in Hcfg. unfold same_config, config in Hcfg. proj.
  rewrite (init_object _ _ _ _ _ _ _ Hinit) in Hcfg.
  unfold constructed, inference_object, training_object in Hcfg. proj.
  injection Hcfg as _ _ _ _ _ _ _ _ _ _ _ Hgan _ _ _ _ _.
  split; [exact Hgan |].
  destruct (backward_d_raises netD real fake s) as (R & S1 & S2 & _ & L).
  fold r in R, S1, S2, L.
  repeat (split; [assumption |]).
  intros x dr -> Hx. subst r.
  now rewrite (@backward_d_run netD x fake s gan_criterion dr Hgan Hx).
Qed.


(** *** backward_g *)

Lemma backward_g_run (s : State) (gan : Data -> Data -> option Data)
    (dA : Net) (fB : Tensor) (pA : Data) :
  let w := world s in
  criterionGAN (self s) = Some gan ->
  DisA (self s) = Some dA ->
  fake_B (self s) = Some fB ->
  net_apply (store w) dA (t_data fB) = Some pA ->
  backward_g s =
    Raise (AttributeError "size")
      {| self := self s;
         world := set_log (log w ++ [EvCall dA fB (grad_enabled w)]) w |}.
Proof.
  destruct s as [c0 w0]. proj. intros Hgan HdA HfB HpA.
  unfold backward_g. mstep. rewrite Hgan. mstep. rewrite HdA. mstep.
  rewrite HfB. run_call HpA. mstep. rewrite call_gan_label. reflexivity.
Qed.

Lemma backward_g_raises (s : State) :
  let r := backward_g s in
  raised r = true /\ self (final r) = self s /\
  store (world (final r)) = store (world s) /\
  optim (world (final r)) = optim (world s) /\
  log (world (final r)) =
    log (world s) ++ match criterionGAN (self s), DisA (self s),
                           fake_B (self s) with
                     | Some _, Some dA, Some x =>
                         [EvCall dA x (grad_enabled (world s))]
                     | _, _, _ => []
                     end.
Proof.
  destruct s as [c0 w0]. cbv zeta. proj.
  unfold backward_g, call_net, call_gan, emit, record.
  repeat (mstep; rewrite ?app_nil_r; try (repeat split; reflexivity);
          case_head).
Qed.

(** C2. [backward_g] computes no loss.  On a controller constructed in
    training mode, at any later point of its life, the call ends in an
    exception before [loss_genA] is assigned: no loss attribute changes, no
    backward pass is run and no parameter changes.  With the samples of a
    forward pass stored and [fake_B] accepted by DisA, the exception is the
    criterion failing on the size of the label [True], raised after that
    one call of DisA; the cycle terms and the weights 10.0 are never
    read. *)
Theorem backward_g_stops_at_criterion {O : Type} (options : O)
    (dev : Device) (prefix : string) (lr b1 : float) (w : World)
    (c : CycleGAN) (w' : World) (calls : list Call) :
  __init__ options dev prefix lr b1 true w = Ok c w' ->
  let s := run_all calls {| self := c; world := w' |} in
  let r := backward_g s in
  let dA := fresh_DisA w in
  lambda_A (self s) = 10.0%float /\ lambda_B (self s) = 10.0%float /\
  criterionGAN (self s) = Some gan_criterion /\ DisA (self s) = Some dA /\
  raised r = true /\ self (final r) = self s /\
  store (world (final r)) = store (world s) /\
  log (world (final r)) =
    log (world s) ++ match fake_B (self s) with
                     | Some x => [EvCall dA x (grad_enabled (world s))]
                     | None => []
                     end /\
  forall fB pA,
    fake_B (self s) = Some fB ->
    net_apply (store (world s)) dA (t_data fB) = Some pA ->
    r = Raise (AttributeError "size") (final r).
Proof.
  intros Hinit s r dA.
  pose proof (run_all_keeps_config calls {| self := c; world := w' |}) as Hcfg.
  fold s in Hcfg. unfold same_config, config in Hcfg. proj.
  rewrite (init_object _ _ _ _ _ _ _ Hinit) in Hcfg.
  unfold constructed, inference_object, training_object in Hcfg. proj.
  injection Hcfg as _ HlA HlB _ _ _ _ _ _ HDA _ Hgan _ _ _ _ _.
  fold dA in HDA.
  repeat (split; [assumption |]).
  destruct (backward_g_raises s) as (R & S1 & S2 & _ & L).
  rewrite Hgan, HDA in L. fold r in R, S1, S2, L.
  repeat (split; [assumption |]).
  intros fB pA HfB HpA. subst r.
  now rewrite (@backward_g_run s gan_criterion dA fB pA Hgan HDA HfB HpA).
Qed.

(** *** train *)

Lemma weights_ext (st st' : ParamId -> Param) (net : Net) :
  (forall p, In p (n_params net) -> p_data (st' p) = p_data (st p)) ->
  weights st' net = weights st net.
Proof. intros H. unfold weights. now apply map_ext_in. Qed.

Lemma net_apply_ext (st st' : ParamId -> Param) (net : Net) (x : Data) :
  (forall p, In p (n_params net) -> p_data (st' p) = p_data (st p)) ->
  net_apply st' net x = net_apply st net x.
Proof. intros H. unfold net_apply. now rewrite (weights_ext st st' net H). Qed.

Lemma zero_grad_run (o : OptId) (w : World) :
  zero_grad o w =
    Ok tt (set_store (update (o_params (optim w o)) clear_grad (store w))
             (set_log (log w ++ [EvZeroGrad o]) w)).
Proof. reflexivity. Qed.

(** What the updates of a step do to one leaf. *)
Lemma update_data (l : list ParamId) (f : ParamId -> Param -> Param)
    (st : ParamId -> Param) (p : ParamId) :
  (forall q x, p_data (f q x) = p_data x) ->
  p_data (update l f st p) = p_data (st p).
Proof. intros H. unfold update. destruct (mem p l); [apply H | reflexivity]. Qed.

Lemma update_flag (l : list ParamId) (f : ParamId -> Param -> Param)
    (st : ParamId -> Param) (p : ParamId) :
  (forall q x, p_requires_grad (f q x) = p_requires_grad x) ->
  p_requires_grad (update l f st p) = p_requires_grad (st p).
Proof. intros H. unfold update. destruct (mem p l); [apply H | reflexivity]. Qed.

Lemma adam_param_flag (opt : Optimizer) (q : ParamId) (x : Param) :
  p_requires_grad (adam_param opt q x) = p_requires_grad x.
Proof. unfold adam_param. now destruct (p_grad x). Qed.

Lemma train_raises (s : State) : raised (train s) = true.
Proof.
  unfold train. cbv beta iota delta [bind].
  destruct (forward s) as [[] [c1 w1] | e s1]; [| reflexivity].
  unfold attr at 1. proj. destruct (DisA c1) as [dA |]; [| reflexivity].
  unfold attr at 1. proj. destruct (DisB c1) as [dB |]; [| reflexivity].
  unfold liftW at 1. proj.
  destruct (set_requires_grad_run [Some dA; Some dB] false w1)
    as [w2 [R2 _]].
  rewrite R2.
  unfold attr at 1. proj. destruct (optimizer_g c1) as [og |]; [| reflexivity].
  unfold liftW at 1. proj. rewrite zero_grad_run.
  match goal with
  | |- context [backward_g ?S] =>
      destruct (backward_g_raises S) as [R _];
      destruct (backward_g S); [discriminate R | reflexivity]
  end.
Qed.

Section TrainStep.

(** The state a step starts from: a training-mode controller with a batch
    stored, whose network calls are accepted. *)
Variable s : State.
Variables rA rB : Tensor.
Variables dA dB : Net.
Variable og : OptId.
Variable gan : Data -> Data -> option Data.
Variables a b c d pA : Data.

Let w := world s.
Let st := store w.
Let tr := grad_enabled w.
Let gA := GenA (self s).
Let gB := GenB (self s).

Hypothesis HrA : real_A (self s) = Some rA.
Hypothesis HrB : real_B (self s) = Some rB.
Hypothesis HdA : DisA (self s) = Some dA.
Hypothesis HdB : DisB (self s) = Some dB.
Hypothesis Hog : optimizer_g (self s) = Some og.
Hypothesis Hgan : criterionGAN (self s) = Some gan.
(* the generators on the batch *)
Hypothesis Ha : net_apply st gA (t_data rA) = Some a.
Hypothesis Hb : net_apply st gB a = Some b.
Hypothesis Hc : net_apply st gB (t_data rB) = Some c.
Hypothesis Hd : net_apply st gA c = Some d.
(* DisA on the first fake, with the weights the step starts from *)
Hypothesis HpA : net_apply st dA a = Some pA.

(** The samples of the forward pass. *)
Let fB := out_tensor tr st gA rA a.
Let nA := out_tensor tr st gB fB b.
Let fA := out_tensor tr st gB rB c.
Let nB := out_tensor tr st gA fA d.

(** C1. No call of [train()] returns, and none reaches an optimizer step.
    On such a state the call issues the four network calls of [forward],
    switches tracking off on every parameter of DisA and DisB, clears the
    generator optimizer's gradients and enters [backward_g], where DisA
    scores [fake_B] and the criterion fails on the size of the label [True].
    That exception ends the step: no backward pass, no generator step, no
    unfreezing, no [backward_d] and no discriminator step follow.  No
    parameter value, no optimizer and no loss attribute has changed, and
    every parameter of both discriminators is left frozen. *)
Theorem train_stops_at_criterion :
  (forall s0, raised (train s0) = true) /\
  exists s',
    train s = Raise (AttributeError "size") s' /\
    log (world s') =
      log w
      ++ [EvCall gA rA tr; EvCall gB fB tr;
          EvCall gB rB tr; EvCall gA fA tr]
      ++ map (fun p => EvRequiresGrad p false) (n_params dA ++ n_params dB)
      ++ [EvZeroGrad og; EvCall dA fB tr] /\
    (forall p, p_data (store (world s') p) = p_data (st p)) /\
    optim (world s') = optim w /\
    (forall p, In p (n_params dA ++ n_params dB) ->
       p_requires_grad (store (world s') p) = false) /\
    loss_genA (self s') = loss_genA (self s) /\
    loss_genB (self s') = loss_genB (self s) /\
    loss_cycle_A (self s') = loss_cycle_A (self s) /\
    loss_cycle_B (self s') = loss_cycle_B (self s) /\
    loss_G (self s') = loss_G (self s) /\
    loss_disA (self s') = loss_disA (self s) /\
    loss_disB (self s') = loss_disB (self s) /\
    fake_B (self s') = Some fB /\ new_A (self s') = Some nA /\
    fake_A (self s') = Some fA /\ new_B (self s') = Some nB.
Proof.
  split; [exact train_raises |].
  subst w st tr gA gB fB nA fA nB.
  destruct s as [c0 w0]. proj.
  pose proof (@forward_run {| self := c0; world := w0 |} rA rB a b c d
                HrA HrB Ha Hb Hc Hd) as HF.
  cbv zeta in HF. proj.
  unfold train. cbv beta iota delta [bind]. rewrite HF. clear HF. mstep.
  set (fB := out_tensor (grad_enabled w0) (store w0) (GenA c0) rA a) in *.
  set (fA := out_tensor (grad_enabled w0) (store w0) (GenB c0) rB c) in *.
  set (nA := out_tensor (grad_enabled w0) (store w0) (GenB c0) fB b) in *.
  set (nB := out_tensor (grad_enabled w0) (store w0) (GenA c0) fA d) in *.
  (* freeze *)
  rewrite HdA. mstep. rewrite HdB. mstep.
  match goal with
  | |- context [set_requires_grad ?n ?f ?W] =>
      destruct (set_requires_grad_run n f W)
        as [wB [HB [HstB [HlogB HenvB]]]]; rewrite HB; clear HB
  end.
  proj. cbn [params_of flat_map] in HstB, HlogB.
  rewrite app_nil_r in HstB, HlogB.
  destruct HenvB as [_ [HoptB [_ [_ [_ [HtrB _]]]]]]. proj.
  (* generator gradients cleared *)
  mstep. rewrite Hog. mstep. rewrite zero_grad_run. mstep.
  set (stC := update (o_params (optim wB og)) clear_grad (store wB)) in *.
  assert (HdataC : forall p, p_data (stC p) = p_data (store w0 p)).
  { intros p. subst stC. rewrite update_data by reflexivity.
    rewrite HstB. now destruct (mem p _). }
  assert (HflagC : forall p, In p (n_params dA ++ n_params dB) ->
                     p_requires_grad (stC p) = false).
  { intros p Hp. subst stC. rewrite update_flag by reflexivity.
    rewrite HstB. apply mem_In in Hp. now rewrite Hp. }
  clearbody stC. clear HstB.
  (* backward_g *)
  match goal with
  | |- context [backward_g ?S] =>
      rewrite (@backward_g_run S gan dA fB pA)
  end.
  2-4: proj; first [assumption | reflexivity].
  2: { proj. rewrite net_apply_ext with (st := store w0); [exact HpA |].
       intros p _. apply HdataC. }
  eexists. split; [reflexivity |]. proj.
  split.
  { rewrite HlogB, HtrB. proj. repeat rewrite <- app_assoc. reflexivity. }
  split; [exact HdataC |]. split; [exact HoptB |]. split; [exact HflagC |].
  repeat split.
Qed.

End TrainStep.

(** * Further properties *)

(** *** Relations on the world that every substrate operation keeps *)

Section WorldFrames.

Variable RW : World -> World -> Prop.
Hypothesis RW_refl : forall w, RW w w.
Hypothesis RW_trans : forall w1 w2 w3, RW w1 w2 -> RW w2 w3 -> RW w1 w3.
Hypothesis RW_log : forall l w, RW w (set_log l w).

Lemma keepsW_ret {A} (a : A) : keepsW RW (ret a).
Proof. intros w. apply RW_refl. Qed.

Lemma keepsW_raise {A} (e : exn) : keepsW RW (@raise World A e).
Proof. intros w. apply RW_refl. Qed.

Lemma keepsW_gets {A} (f : World -> A) : keepsW RW (gets f).
Proof. intros w. apply RW_refl. Qed.

Lemma keepsW_modify (f : World -> World) :
  (forall w, RW w (f w)) -> keepsW RW (modify f).
Proof. intros H w. apply H. Qed.

Lemma keepsW_bind {A B} (m : M World A) (k : A -> M World B) :
  keepsW RW m -> (forall a, keepsW RW (k a)) -> keepsW RW (bind m k).
Proof.
  intros Hm Hk w. unfold bind. specialize (Hm w).
  destruct (m w) as [a w' | e w']; cbn [final] in *.
  - eapply RW_trans; [exact Hm | apply Hk].
  - exact Hm.
Qed.

Lemma keepsW_emit (e : Event) : keepsW RW (emit e).
Proof. apply keepsW_modify. intros w. apply RW_log. Qed.

Lemma keepsW_record (h : list ParamId) : keepsW RW (record h).
Proof. apply keepsW_gets. Qed.

Lemma keepsW_for_each {A} (l : list A) (body : A -> M World unit) :
  (forall x, keepsW RW (body x)) -> keepsW RW (for_each l body).
Proof.
  intros H. induction l as [| x l IH]; cbn [for_each].
  - apply keepsW_ret.
  - apply keepsW_bind; [apply H | intros _; exact IH].
Qed.

Ltac wprim :=
  repeat match goal with
    | |- keepsW _ (bind _ _) => apply keepsW_bind; [| intro]
    | |- keepsW _ (ret _) => apply keepsW_ret
    | |- keepsW _ (raise _) => apply keepsW_raise
    | |- keepsW _ (gets _) => apply keepsW_gets
    | |- keepsW _ (emit _) => apply keepsW_emit
    | |- keepsW _ (record _) => apply keepsW_record
    | |- keepsW _ (match ?x with _ => _ end) => destruct x
    end.

Lemma keepsW_call_net (net : Net) (x : option Tensor) :
  keepsW RW (call_net net x).
Proof. unfold call_net. wprim. Qed.

Lemma keepsW_tensor_to (dev : Device) (t : Tensor) :
  keepsW RW (tensor_to dev t).
Proof. unfold tensor_to. wprim. Qed.

Lemma keepsW_detach (x : option Tensor) : keepsW RW (detach x).
Proof. unfold detach. wprim. Qed.

Lemma keepsW_tensor_data (x : option Tensor) : keepsW RW (tensor_data x).
Proof. unfold tensor_data. wprim. Qed.

Lemma keepsW_tensor_add (a b : Tensor) : keepsW RW (tensor_add a b).
Proof. unfold tensor_add. wprim. Qed.

Lemma keepsW_tensor_mul (a : Tensor) (c : float) : keepsW RW (tensor_mul a c).
Proof. unfold tensor_mul. wprim. Qed.

Lemma keepsW_call_gan (crit : Data -> Data -> option Data) (pred : Tensor)
    (target : Target) : keepsW RW (call_gan crit pred target).
Proof. unfold call_gan. wprim. Qed.

Lemma keepsW_call_l1 (crit : Data -> Data -> Data) (a b : option Tensor) :
  keepsW RW (call_l1 crit a b).
Proof. unfold call_l1. wprim. Qed.

Lemma keepsW_torch_cat (ts : list Tensor) : keepsW RW (torch_cat ts).
Proof. unfold torch_cat. wprim. Qed.

Lemma keepsW_state_dict (net : Net) : keepsW RW (state_dict net).
Proof. unfold state_dict. wprim. Qed.

Lemma on_world_refl s : on_world RW s s.
Proof. apply RW_refl. Qed.

Lemma on_world_trans s1 s2 s3 :
  on_world RW s1 s2 -> on_world RW s2 s3 -> on_world RW s1 s3.
Proof. unfold on_world. apply RW_trans. Qed.

Lemma keeps_on_world {A} (m : M World A) :
  keepsW RW m -> keeps (on_world RW) (liftW m).
Proof.
  intros H. apply keeps_liftW_when. intros s. apply H.
Qed.

(** What the operations that write the store, the mode or the files must
    respect for the methods that use them. *)
Hypothesis RW_mode : forall b w, RW w (set_grad_enabled b w).
Hypothesis RW_acc : forall l loss w,
  RW w (set_store (update l (accumulate loss) (store w)) w).
Hypothesis RW_clear : forall l w,
  RW w (set_store (update l clear_grad (store w)) w).
Hypothesis RW_flag : forall flag p w,
  RW w (set_store (update [p] (with_flag flag) (store w)) w).
Hypothesis RW_files : forall f w, RW w (set_files f w).

Lemma keepsW_backward (loss : Tensor) : keepsW RW (backward loss).
Proof.
  unfold backward. wprim.
  apply keepsW_modify. intros w. apply RW_acc.
Qed.

Lemma keepsW_zero_grad (o : OptId) : keepsW RW (zero_grad o).
Proof.
  unfold zero_grad. wprim. apply keepsW_modify. intros w. apply RW_clear.
Qed.

Lemma keepsW_set_requires_grad (nets : list (option Net)) (flag : bool) :
  keepsW RW (set_requires_grad nets flag).
Proof.
  unfold set_requires_grad. apply keepsW_for_each. intros [n |].
  - apply keepsW_for_each. intros p. unfold set_flag. wprim.
    apply keepsW_modify. intros w. apply RW_flag.
  - apply keepsW_ret.
Qed.

Lemma keepsW_write_file (path : string) (b : Blob) :
  keepsW RW (write_file path b).
Proof.
  unfold write_file. wprim.
  apply keepsW_modify. intros w0. apply RW_files.
Qed.

Ltac sframe :=
  repeat match goal with
    | |- keeps _ (bind _ _) => eapply keeps_bind; [exact on_world_trans | | intro]
    | |- keeps _ (ret _) => eapply keeps_ret; exact on_world_refl
    | |- keeps _ (raise _) => eapply keeps_raise; exact on_world_refl
    | |- keeps _ (getattr _) => eapply keeps_getattr; exact on_world_refl
    | |- keeps _ (attr _ _) => eapply keeps_attr; exact on_world_refl
    | |- keeps _ (setattr _) => eapply keeps_setattr; intro; apply RW_refl
    | |- keeps _ (liftW _) =>
        apply keeps_on_world;
        first [ apply keepsW_call_net | apply keepsW_tensor_to
              | apply keepsW_detach | apply keepsW_tensor_data
              | apply keepsW_tensor_add | apply keepsW_tensor_mul
              | apply keepsW_call_gan | apply keepsW_call_l1
              | apply keepsW_torch_cat | apply keepsW_state_dict
              | apply keepsW_backward | apply keepsW_zero_grad
              | apply keepsW_set_requires_grad
              | apply keepsW_write_file ]
    end.

Lemma set_input_keepsW (a b : Tensor) : keeps (on_world RW) (set_input a b).
Proof. unfold set_input. sframe. Qed.

Lemma forward_keepsW : keeps (on_world RW) forward.
Proof. unfold forward. sframe. Qed.

Lemma test_keepsW : keeps (on_world RW) test.
Proof.
  intros s. unfold test, no_grad.
  pose proof (forward_keepsW {| self := self s;
                               world := set_grad_enabled false (world s) |})
    as H.
  unfold on_world in *. cbn [world] in H.
  destruct (forward _) as [u s' | e s']; cbn [final world] in *;
    (eapply RW_trans; [apply (RW_mode false) |]);
    (eapply RW_trans; [exact H | apply RW_mode]).
Qed.

Lemma backward_d_keepsW (netD : Net) (real fake : option Tensor) :
  keeps (on_world RW) (backward_d netD real fake).
Proof. unfold backward_d. sframe. Qed.

Lemma backward_g_keepsW : keeps (on_world RW) backward_g.
Proof. unfold backward_g. sframe. Qed.

Lemma save_progress_keepsW (path : string) (epoch iteration : Z) :
  keeps (on_world RW) (save_progress path epoch iteration).
Proof.
  unfold save_progress, save_image, torch_save, tracker_write. sframe.
Qed.

Hypothesis RW_step : forall o w,
  RW w (set_optim
          (fun o' => if Nat.eqb o' o
                     then adam_advance (store w) (optim w o)
                     else optim w o')
          (set_store (update (o_params (optim w o))
                        (adam_param (optim w o)) (store w)) w)).

Lemma keepsW_step (o : OptId) : keepsW RW (step o).
Proof.
  unfold step. wprim. apply keepsW_modify. intros w. apply RW_step.
Qed.

Lemma train_keepsW : keeps (on_world RW) train.
Proof.
  unfold train.
  repeat first
    [ progress sframe
    | apply forward_keepsW | apply backward_g_keepsW
    | apply backward_d_keepsW
    | apply keeps_on_world; apply keepsW_step ].
Qed.

End WorldFrames.

(** *** Files and weights *)

Lemma same_files_trans (w1 w2 w3 : World) :
  same_files w1 w2 -> same_files w2 w3 -> same_files w1 w3.
Proof. unfold same_files. congruence. Qed.

Lemma same_weights_trans (w1 w2 w3 : World) :
  same_weights w1 w2 -> same_weights w2 w3 -> same_weights w1 w3.
Proof.
  unfold same_weights. intros [H1 O1] [H2 O2].
  split; [intros p | ]; congruence.
Qed.

Lemma same_weights_update (l : list ParamId)
    (f : ParamId -> Param -> Param) (w : World) :
  (forall q x, p_data (f q x) = p_data x) ->
  same_weights w (set_store (update l f (store w)) w).
Proof.
  intros H. split; [| reflexivity]. intros p. cbn [store set_store].
  now apply update_data.
Qed.

Lemma run_same_files (c : Call) (s : State) :
  is_save_call c = false -> on_world same_files s (run c s).
Proof.
  destruct c; cbn [run is_save_call]; intros H; try discriminate.
  - apply set_input_keepsW; first [apply same_files_trans | intros; reflexivity].
  - apply forward_keepsW; first [apply same_files_trans | intros; reflexivity].
  - apply backward_d_keepsW; first [apply same_files_trans | intros; reflexivity].
  - apply backward_g_keepsW; first [apply same_files_trans | intros; reflexivity].
  - apply train_keepsW; first [apply same_files_trans | intros; reflexivity].
  - apply test_keepsW; first [apply same_files_trans | intros; reflexivity].
  - apply keeps_on_world.
    apply keepsW_set_requires_grad; first [apply same_files_trans | intros; reflexivity].
Qed.

Lemma run_same_weights (c : Call) (s : State) :
  is_train_call c = false -> on_world same_weights s (run c s).
Proof.
  assert (Hrefl : forall w, same_weights w w) by (split; reflexivity).
  assert (Hlog : forall l w, same_weights w (set_log l w))
    by (split; reflexivity).
  assert (Hmode : forall b w, same_weights w (set_grad_enabled b w))
    by (split; reflexivity).
  assert (Hfiles : forall f w, same_weights w (set_files f w))
    by (split; reflexivity).
  assert (Hacc : forall l loss w,
            same_weights w
              (set_store (update l (accumulate loss) (store w)) w))
    by (intros; now apply same_weights_update).
  assert (Hflag : forall flag p w,
            same_weights w
              (set_store (update [p] (with_flag flag) (store w)) w))
    by (intros; now apply same_weights_update).
  destruct c; cbn [run is_train_call]; intros H; try discriminate.
  - apply set_input_keepsW; first [assumption | apply same_weights_trans].
  - apply forward_keepsW; first [assumption | apply same_weights_trans].
  - apply backward_d_keepsW; first [assumption | apply same_weights_trans].
  - apply backward_g_keepsW; first [assumption | apply same_weights_trans].
  - apply test_keepsW; first [assumption | apply same_weights_trans].
  - apply save_progress_keepsW; first [assumption | apply same_weights_trans].
  - apply keeps_on_world.
    apply keepsW_set_requires_grad; first [assumption | apply same_weights_trans].
Qed.

(** X1. Only [save_progress] writes files: after any sequence of other
    calls, failed or not, every file is as it was. *)
Theorem files_written_only_by_save_progress (calls : list Call) (s : State) :
  forallb (fun c => negb (is_save_call c)) calls = true ->
  files (world (run_all calls s)) = files (world s).
Proof.
  revert s. induction calls as [| c calls IH]; intros s H; [reflexivity |].
  cbn [forallb] in H. apply andb_true_iff in H. destruct H as [H1 H2].
  apply negb_true_iff in H1. cbn [run_all fold_left].
  change (files (world (run_all calls (run c s))) = files (world s)).
  rewrite (IH _ H2). now apply run_same_files.
Qed.

(** X2. Only [train] changes a weight or an optimizer: after any sequence
    of other calls (forward and backward passes, tests, saves, freezes),
    failed or not, every parameter holds the value it held and every
    optimizer is as it was. *)
Theorem weights_changed_only_by_train (calls : list Call) (s : State) :
  forallb (fun c => negb (is_train_call c)) calls = true ->
  (forall p, p_data (store (world (run_all calls s)) p) =
             p_data (store (world s) p)) /\
  optim (world (run_all calls s)) = optim (world s).
Proof.
  revert s. induction calls as [| c calls IH]; intros s H.
  - split; reflexivity.
  - cbn [forallb] in H. apply andb_true_iff in H. destruct H as [H1 H2].
    apply negb_true_iff in H1.
    change (same_weights (world s) (world (run_all calls (run c s)))).
    apply same_weights_trans with (w2 := world (run c s)).
    + now apply run_same_weights.
    + exact (IH _ H2).
Qed.

(** *** Attributes *)

(** X3. No method reassigns an attribute set by the constructor: after any
    sequence of calls the cycle weights, the mode flag, the device, the
    prefix, the tracker, the four networks, the criteria and the optimizers
    are the objects [__init__] stored. *)
Theorem constructor_attributes_never_reassigned (calls : list Call)
    (s : State) :
  let c := self s in
  let c' := self (run_all calls s) in
  name c' = name c /\
  lambda_A c' = lambda_A c /\ lambda_B c' = lambda_B c /\
  is_train c' = is_train c /\ device c' = device c /\
  file_prefix c' = file_prefix c /\ epoch_tracker c' = epoch_tracker c /\
  GenA c' = GenA c /\ GenB c' = GenB c /\
  DisA c' = DisA c /\ DisB c' = DisB c /\
  criterionGAN c' = criterionGAN c /\
  criterionCycle c' = criterionCycle c /\
  criterionIdt c' = criterionIdt c /\
  optimizer_g c' = optimizer_g c /\ optimizer_d c' = optimizer_d c /\
  optimizers c' = optimizers c.
Proof.
  cbv zeta. pose proof (run_all_keeps_config calls s) as H.
  unfold same_config, config in H.
  injection H as H1 H2 H3 H4 H5 H6 H7 H8 H9 H10 H11 H12 H13 H14 H15 H16 H17.
  repeat split; assumption.
Qed.

(** *** Training methods on an inference-mode controller *)

Lemma forward_ok_config (s s1 : State) :
  forward s = Ok tt s1 -> config (self s1) = config (self s).
Proof.
  intros H. pose proof (forward_keeps_config s) as K.
  rewrite H in K. exact K.
Qed.

(** X4. On a controller without the training attributes (as built with
    [train=False]) every training method raises.  [train] runs the forward
    pass first, so it may overwrite the samples, and fails on [self.DisA]
    when the pass went through; it changes no parameter, optimizer or stored
    loss.  [backward_g] fails on [self.criterionGAN] before doing anything.
    [backward_d] calls the discriminator it is given on the real batch and
    then fails, without reaching a backward pass. *)
Theorem training_methods_raise_in_inference_mode (s : State) (netD : Net)
    (real fake : option Tensor) :
  DisA (self s) = None ->
  criterionGAN (self s) = None ->
  raised (train s) = true /\
  quiet s (final (train s)) /\
  (forall s1, forward s = Ok tt s1 ->
     train s = Raise (AttributeError "DisA") s1) /\
  backward_g s = Raise (AttributeError "criterionGAN") s /\
  raised (backward_d netD real fake s) = true /\
  store (world (final (backward_d netD real fake s))) = store (world s).
Proof.
  intros HD HC.
  assert (Htrain : forall s1, forward s = Ok tt s1 ->
            train s = Raise (AttributeError "DisA") s1).
  { intros s1 H1. pose proof (@forward_ok_config s s1 H1) as K.
    unfold config in K.
    injection K as _ _ _ _ _ _ _ _ _ K _ _ _ _ _ _ _.
    unfold train. cbv beta iota delta [bind attr]. rewrite H1.
    rewrite K, HD. reflexivity. }
  split; [| split; [| split; [exact Htrain | split; [| split]]]].
  - destruct (forward s) as [[] s1 | e s1] eqn:E.
    + now rewrite (Htrain s1 eq_refl).
    + unfold train. cbv beta iota delta [bind]. now rewrite E.
  - pose proof (forward_quiet s) as Q.
    destruct (forward s) as [[] s1 | e s1] eqn:E.
    + now rewrite (Htrain s1 eq_refl).
    + unfold train. cbv beta iota delta [bind]. now rewrite E.
  - destruct s as [c0 w0]. cbn [self] in *.
    unfold backward_g. mstep. now rewrite HC.
  - destruct s as [c0 w0]. cbn [self] in *.
    unfold backward_d, call_net, emit, record.
    repeat (mstep; try rewrite HC; try reflexivity; case_head).
  - destruct s as [c0 w0]. cbn [self] in *.
    unfold backward_d, call_net, emit, record.
    repeat (mstep; try rewrite HC; try reflexivity; case_head).
Qed.

(** *** forward, when a network rejects its input *)

Lemma call_net_rejected (net : Net) (x : Tensor) (w : World) :
  net_apply (store w) net (t_data x) = None ->
  call_net net (Some x) w =
    Raise ShapeMismatchError
      (set_log (log w ++ [EvCall net x (grad_enabled w)]) w).
Proof.
  unfold net_apply. intros H.
  unfold call_net, bind, gets, emit, modify, raise. cbn [store set_log].
  rewrite H. reflexivity.
Qed.

(** X5. A forward pass that fails half-way keeps what it had stored: when
    GenA and GenB accept the A side and GenB rejects [real_B], [forward]
    raises ShapeMismatchError with [fake_B] and [new_A] computed from the
    new batch and [fake_A] and [new_B] left as they were, so the controller
    then holds samples of two different passes. *)
Theorem forward_fails_half_way (s : State) (rA rB : Tensor) (a b : Data) :
  let w := world s in
  let st := store w in
  let tr := grad_enabled w in
  let gA := GenA (self s) in
  let gB := GenB (self s) in
  real_A (self s) = Some rA ->
  real_B (self s) = Some rB ->
  net_apply st gA (t_data rA) = Some a ->
  net_apply st gB a = Some b ->
  net_apply st gB (t_data rB) = None ->
  let fB := out_tensor tr st gA rA a in
  let nA := out_tensor tr st gB fB b in
  exists s',
    forward s = Raise ShapeMismatchError s' /\
    fake_B (self s') = Some fB /\ new_A (self s') = Some nA /\
    fake_A (self s') = fake_A (self s) /\ new_B (self s') = new_B (self s) /\
    log (world s') = log w ++ [EvCall gA rA tr; EvCall gB fB tr;
                               EvCall gB rB tr] /\
    store (world s') = st.
Proof.
  destruct s as [c0 w0]. cbn [self world]. intros HA HB Ha Hb Hc.
  unfold forward. mstep.
  rewrite HA. run_call Ha. mstep.
  run_call Hb. mstep.
  rewrite HB.
  match goal with
  | |- context [call_net ?n (Some ?x) ?w] =>
      rewrite (@call_net_rejected n x w Hc)
  end.
  mstep. eexists. split; [reflexivity |]. proj.
  repeat (split; [reflexivity |]). split; [| reflexivity].
  now rewrite <- !app_assoc.
Qed.

(** *** save_progress, file by file *)

Lemma write_file_run (path : string) (b : Blob) (w : World) :
  writable w path = true ->
  write_file path b w =
    Ok tt (set_files (put_file path b (files w))
             (set_log (log w ++ [EvWrite path]) w)).
Proof.
  intros H. unfold write_file, emit. mstep. rewrite H. reflexivity.
Qed.

Ltac write_step :=
  match goal with
  | |- context [write_file ?p ?b ?w] =>
      rewrite (@write_file_run p b w) by (proj; assumption)
  end; mstep.

Lemma save_progress_run (path : string) (epoch iteration : Z) (s : State)
    (tA tfA tB tfB : Tensor) (img : Data) (dA dB : Net) :
  let c := self s in
  let w := world s in
  let st := store w in
  let image := image_path path epoch iteration in
  let ga := (file_prefix c ++ "generator_a.pth")%string in
  let gb := (file_prefix c ++ "generator_b.pth")%string in
  let da := (file_prefix c ++ "discriminator_a.pth")%string in
  let db := (file_prefix c ++ "discriminator_b.pth")%string in
  let mk := et_file (epoch_tracker c) in
  real_A c = Some tA -> fake_A c = Some tfA ->
  real_B c = Some tB -> fake_B c = Some tfB ->
  t_cat [t_data tA; t_data tfA; t_data tB; t_data tfB] = Some img ->
  DisA c = Some dA -> DisB c = Some dB ->
  writable w image = true ->
  writable w ga = true -> writable w gb = true ->
  writable w da = true -> writable w db = true ->
  writable w mk = true ->
  save_progress path epoch iteration s =
    Ok tt
      {| self := c;
         world :=
           set_files
             (put_file mk (marker epoch iteration)
                (put_file db (pickle (weights st dB))
                   (put_file da (pickle (weights st dA))
                      (put_file gb (pickle (weights st (GenB c)))
                         (put_file ga (pickle (weights st (GenA c)))
                            (put_file image (png img) (files w)))))))
             (set_log (log w ++ [EvWrite image; EvWrite ga; EvWrite gb;
                                 EvWrite da; EvWrite db; EvWrite mk]) w) |}.
Proof.
  destruct s as [c0 w0]. cbv zeta. proj.
  intros HrA HfA HrB HfB Hcat HDA HDB Wi Wga Wgb Wda Wdb Wmk.
  unfold save_progress, tensor_data, torch_cat, save_image, torch_save,
    tracker_write, state_dict, record. mstep.
  rewrite HrA. mstep. rewrite HfA. mstep. rewrite HrB. mstep.
  rewrite HfB. mstep. cbn [map t_data]. rewrite Hcat. mstep.
  fold (image_path path epoch iteration).
  write_step. write_step. write_step. rewrite HDA. mstep.
  write_step. rewrite HDB. mstep. write_step. write_step.
  rewrite <- !app_assoc. reflexivity.
Qed.

(** X6. [save_progress] needs the four samples: when one of [real_A],
    [fake_A], [real_B], [fake_B] is not assigned it raises on the [.data] of
    that sample before anything is written or logged. *)
Theorem save_progress_needs_samples (path : string) (epoch iteration : Z)
    (s : State) :
  real_A (self s) = None \/ fake_A (self s) = None \/
  real_B (self s) = None \/ fake_B (self s) = None ->
  save_progress path epoch iteration s = Raise (AttributeError "data") s.
Proof.
  destruct s as [c0 w0]. proj. intros H.
  unfold save_progress, tensor_data. mstep.
  destruct (real_A c0); [| reflexivity]. mstep.
  destruct (fake_A c0); [| reflexivity]. mstep.
  destruct (real_B c0); [| reflexivity]. mstep.
  destruct (fake_B c0); [| reflexivity].
  destruct H as [H | [H | [H | H]]]; discriminate.
Qed.

(** X7. With the four samples present, both discriminators assigned and
    every target writable, [save_progress] returns after six writes in this
    order: the image of the concatenated sample contents, the state dicts
    of GenA, GenB, DisA and DisB under the prefix, and last the marker with
    the epoch and the iteration.  It changes no attribute and no
    parameter. *)
Theorem save_progress_writes_checkpoint (path : string)
    (epoch iteration : Z) (s : State) (tA tfA tB tfB : Tensor) (img : Data)
    (dA dB : Net) :
  let c := self s in
  let w := world s in
  let st := store w in
  let image := image_path path epoch iteration in
  let ga := (file_prefix c ++ "generator_a.pth")%string in
  let gb := (file_prefix c ++ "generator_b.pth")%string in
  let da := (file_prefix c ++ "discriminator_a.pth")%string in
  let db := (file_prefix c ++ "discriminator_b.pth")%string in
  let mk := et_file (epoch_tracker c) in
  real_A c = Some tA -> fake_A c = Some tfA ->
  real_B c = Some tB -> fake_B c = Some tfB ->
  t_cat [t_data tA; t_data tfA; t_data tB; t_data tfB] = Some img ->
  DisA c = Some dA -> DisB c = Some dB ->
  (forall q, In q [image; ga; gb; da; db; mk] -> writable w q = true) ->
  exists s',
    save_progress path epoch iteration s = Ok tt s' /\
    self s' = c /\ store (world s') = st /\
    log (world s') = log w ++ [EvWrite image; EvWrite ga; EvWrite gb;
                               EvWrite da; EvWrite db; EvWrite mk] /\
    files (world s') =
      put_file mk (marker epoch iteration)
        (put_file db (pickle (weights st dB))
           (put_file da (pickle (weights st dA))
              (put_file gb (pickle (weights st (GenB c)))
                 (put_file ga (pickle (weights st (GenA c)))
                    (put_file image (png img) (files w)))))).
Proof.
  cbv zeta. intros HrA HfA HrB HfB Hcat HDA HDB W.
  eexists. split.
  - apply (save_progress_run path epoch iteration s HrA HfA HrB HfB Hcat
             HDA HDB); apply W; cbn [In]; tauto.
  - proj. repeat split; reflexivity.
Qed.

Ltac changed_path q H :=
  unfold put_file in H;
  repeat match type of H with
    | context [String.eqb q ?p] =>
        destruct (String.eqb_spec q p);
        [subst q; cbn [In]; tauto |]
    end;
  exfalso; apply H; reflexivity.

(** X8. Whatever the state, and whether it returns or raises,
    [save_progress] changes no file other than the image, the four weight
    files and the marker; and when it raises, a marker file with a path of
    its own is as it was, so the marker never names a checkpoint newer than
    the weight files. *)
Theorem save_progress_touches_only_its_files (path : string)
    (epoch iteration : Z) (s : State) :
  let c := self s in
  let r := save_progress path epoch iteration s in
  let image := image_path path epoch iteration in
  let ga := (file_prefix c ++ "generator_a.pth")%string in
  let gb := (file_prefix c ++ "generator_b.pth")%string in
  let da := (file_prefix c ++ "discriminator_a.pth")%string in
  let db := (file_prefix c ++ "discriminator_b.pth")%string in
  let mk := et_file (epoch_tracker c) in
  (forall q, files (world (final r)) q <> files (world s) q ->
     In q [image; ga; gb; da; db; mk]) /\
  (raised r = true ->
   forall q, files (world (final r)) q <> files (world s) q ->
     In q [image; ga; gb; da; db]).
Proof.
  destruct s as [c0 w0]. cbv zeta. proj.
  unfold save_progress, tensor_data, torch_cat, save_image, torch_save,
    tracker_write, state_dict, write_file, emit, record.
  fold (image_path path epoch iteration).
  repeat (mstep; try case_head);
    (split; [| intros R; try discriminate R]); intros q Hq;
    proj; changed_path q Hq.
Qed.

(** *** Freezing and unfreezing *)

(** X9. Two calls of [set_requires_grad] on the same networks compose to the
    second: the store they leave is the one the second call alone leaves.
    Freezing networks and unfreezing them therefore does not restore the
    flags they had; every one of their parameters ends trainable. *)
Theorem set_requires_grad_last_call_wins (nets : list (option Net))
    (flag1 flag2 : bool) (w : World) :
  exists w1 w2 w2',
    set_requires_grad nets flag1 w = Ok tt w1 /\
    set_requires_grad nets flag2 w1 = Ok tt w2 /\
    set_requires_grad nets flag2 w = Ok tt w2' /\
    (forall p, store w2 p = store w2' p) /\
    (forall p, In p (params_of nets) ->
       p_requires_grad (store w2 p) = flag2).
Proof.
  destruct (set_requires_grad_run nets flag1 w) as [w1 [R1 [S1 _]]].
  destruct (set_requires_grad_run nets flag2 w1) as [w2 [R2 [S2 _]]].
  destruct (set_requires_grad_run nets flag2 w) as [w2' [R3 [S3 _]]].
  exists w1, w2, w2'. repeat (split; [assumption |]). split.
  - intros p. rewrite S2, S3, S1.
    destruct (mem p (params_of nets)); reflexivity.
  - intros p Hp. rewrite S2. apply mem_In in Hp. now rewrite Hp.
Qed.

Lemma train_after_forward (s : State) (c1 : CycleGAN) (w1 : World)
    (dA dB : Net) (og : OptId) :
  forward s = Ok tt {| self := c1; world := w1 |} ->
  DisA c1 = Some dA -> DisB c1 = Some dB -> optimizer_g c1 = Some og ->
  exists e s',
    train s = Raise e s' /\
    (forall p, p_data (store (world s') p) = p_data (store w1 p)) /\
    optim (world s') = optim w1 /\
    forall p, In p (n_params dA ++ n_params dB) ->
      p_requires_grad (store (world s') p) = false.
Proof.
  intros Hfw HA HB Hog.
  unfold train. cbv beta iota delta [bind]. rewrite Hfw.
  unfold attr at 1. proj. rewrite HA.
  unfold attr at 1. proj. rewrite HB.
  unfold liftW at 1. proj.
  destruct (set_requires_grad_run [Some dA; Some dB] false w1)
    as [w2 [R2 [S2 [_ E2]]]].
  rewrite R2. cbn [params_of flat_map] in S2. rewrite app_nil_r in S2.
  destruct E2 as [_ [O2 _]].
  unfold attr at 1. proj. rewrite Hog.
  unfold liftW at 1. proj. rewrite zero_grad_run.
  match goal with
  | |- context [backward_g ?S] =>
      destruct (backward_g_raises S) as (R & _ & St & Op & _);
      destruct (backward_g S) as [[] s4 | e s4]; [discriminate R |]
  end.
  cbn [final] in St, Op. proj.
  exists e, s4. split; [reflexivity |]. rewrite St, Op. proj.
  split; [| split; [exact O2 |]].
  - intros p. rewrite update_data by reflexivity.
    rewrite S2. now destruct (mem p (n_params dA ++ n_params dB)).
  - intros p Hp. rewrite update_flag by reflexivity.
    rewrite S2. apply mem_In in Hp. now rewrite Hp.
Qed.

(** X10. [train] leaves the discriminators frozen.  On a controller with
    the training attributes, once the forward pass has gone through, the
    call ends in an exception raised inside [backward_g], after the first
    [set_requires_grad] and before the second: every parameter of DisA and
    DisB is left with gradient tracking off, whatever its flag was before
    the call. *)
Theorem train_leaves_discriminators_frozen (s : State) (dA dB : Net)
    (og : OptId) :
  raised (forward s) = false ->
  DisA (self s) = Some dA -> DisB (self s) = Some dB ->
  optimizer_g (self s) = Some og ->
  raised (train s) = true /\
  forall p, In p (n_params dA ++ n_params dB) ->
    p_requires_grad (store (world (final (train s))) p) = false.
Proof.
  intros Hr HA HB Hog.
  pose proof (forward_keeps_config s) as Hcfg.
  destruct (forward s) as [[] [c1 w1] | e s1] eqn:Hfw; [| discriminate].
  cbn [final] in Hcfg. unfold same_config, config in Hcfg. proj.
  injection Hcfg as _ _ _ _ _ _ _ _ _ HA' HB' _ _ _ Hog' _ _.
  rewrite HA in HA'. rewrite HB in HB'. rewrite Hog in Hog'.
  destruct (@train_after_forward s c1 w1 dA dB og Hfw HA' HB' Hog')
    as (e & s' & Hrun & _ & _ & Hflag).
  rewrite Hrun. cbn [raised final]. split; [reflexivity | exact Hflag].
Qed.

(** *** train inside a no-grad scope *)

Lemma untracked_refl (w : World) : untracked w w.
Proof. repeat split. Qed.

Lemma untracked_trans (w1 w2 w3 : World) :
  untracked w1 w2 -> untracked w2 w3 -> untracked w1 w3.
Proof.
  intros [G1 W1] [G2 W2]. split; [congruence |].
  eapply same_weights_trans; eassumption.
Qed.

Lemma untracked_update (l : list ParamId) (f : ParamId -> Param -> Param)
    (w : World) :
  (forall q x, p_data (f q x) = p_data x) ->
  untracked w (set_store (update l f (store w)) w).
Proof. intros H. split; [reflexivity | now apply same_weights_update]. Qed.

(** X11. Inside a no-grad scope [train] never returns and never updates a
    weight or an optimizer: it raises no later than in [backward_g], before
    the first optimizer step.  When the forward pass went through on a
    controller with the training attributes, the exception leaves every
    discriminator parameter frozen. *)
Theorem train_without_tracking (s : State) :
  grad_enabled (world s) = false ->
  exists e s',
    train s = Raise e s' /\
    (forall p, p_data (store (world s') p) = p_data (store (world s) p)) /\
    optim (world s') = optim (world s) /\
    (forall s1 dA dB og,
       forward s = Ok tt s1 ->
       DisA (self s) = Some dA -> DisB (self s) = Some dB ->
       optimizer_g (self s) = Some og ->
       forall p, In p (n_params dA ++ n_params dB) ->
         p_requires_grad (store (world s') p) = false).
Proof.
  intros Hg.
  assert (Hfw : on_world untracked s (final (forward s))).
  { apply forward_keepsW;
      first [exact untracked_refl | exact untracked_trans
            | intros; now repeat split]. }
  pose proof (forward_keeps_config s) as Hcfg.
  unfold train. cbv beta iota delta [bind].
  destruct (forward s) as [[] s1 | e s1] eqn:Efw; cbn [final] in Hfw, Hcfg.
  2: { destruct Hfw as [_ [Hd Ho]]. eexists. eexists.
       split; [reflexivity |].
       repeat split; try assumption. intros; discriminate. }
  unfold same_config, config in Hcfg.
  injection Hcfg as _ _ _ _ _ _ _ _ _ HA HB _ _ _ Hog _ _.
  destruct s1 as [c1 w1]. unfold on_world in Hfw. proj.
  unfold attr at 1. proj.
  destruct (DisA c1) as [dA |] eqn:EA.
  2: { destruct Hfw as [_ [Hd Ho]]. eexists. eexists.
       split; [reflexivity |]. proj.
       repeat split; try assumption. intros. congruence. }
  unfold attr at 1. proj.
  destruct (DisB c1) as [dB |] eqn:EB.
  2: { destruct Hfw as [_ [Hd Ho]]. eexists. eexists.
       split; [reflexivity |]. proj.
       repeat split; try assumption. intros. congruence. }
  unfold liftW at 1. proj.
  destruct (set_requires_grad_run [Some dA; Some dB] false w1)
    as [w2 [R2 [S2 [_ E2]]]].
  rewrite R2. cbn [params_of flat_map] in S2. rewrite app_nil_r in S2.
  destruct E2 as [_ [O2 [_ [_ [_ [G2 _]]]]]].
  unfold attr at 1. proj.
  destruct (optimizer_g c1) as [og |] eqn:Eog.
  2: { destruct Hfw as [_ [Hd Ho]]. eexists. eexists.
       split; [reflexivity |]. proj. split; [| split].
       - intros p. rewrite S2, <- Hd.
         now destruct (mem p (n_params dA ++ n_params dB)).
       - congruence.
       - intros. congruence. }
  unfold liftW at 1. proj. rewrite zero_grad_run.
  match goal with
  | |- context [backward_g ?S] => set (s3 := S) in *
  end.
  assert (H3 : untracked (world s) (world s3) /\
               forall p, In p (n_params dA ++ n_params dB) ->
                 p_requires_grad (store (world s3) p) = false).
  { subst s3. proj. destruct Hfw as [Gw [Hd Ho]]. split; [split; [| split] |].
    - proj. congruence.
    - intros p. proj. rewrite update_data by reflexivity.
      rewrite S2, <- Hd. now destruct (mem p (n_params dA ++ n_params dB)).
    - proj. congruence.
    - intros p Hp. rewrite update_flag by reflexivity.
      rewrite S2. apply mem_In in Hp. now rewrite Hp. }
  destruct H3 as [U3 F3].
  assert (Hbg : on_world untracked s3 (final (backward_g s3))).
  { apply backward_g_keepsW;
      first [exact untracked_refl | exact untracked_trans
            | intros; now apply untracked_update
            | intros; now repeat split]. }
  assert (Hbf : on_world same_flags s3 (final (backward_g s3))).
  { apply backward_g_keepsW; unfold same_flags.
    - reflexivity.
    - intros x1 x2 x3 H1 H2 p. now rewrite H2.
    - reflexivity.
    - intros l loss w p. cbn [store set_store]. now apply update_flag. }
  assert (Hr : raised (backward_g s3) = true).
  { apply backward_g_raises. }
  destruct (backward_g s3) as [[] s4 | e s4]; [discriminate |].
  cbn [raised final] in *. unfold on_world in Hbg, Hbf.
  destruct (untracked_trans U3 Hbg) as [_ [Hd Ho]].
  eexists. eexists. split; [reflexivity |].
  repeat split; try assumption.
  intros s1' dA' dB' og' Hs1 HdA HdB _ p Hp.
  rewrite (Hbf p). apply F3. congruence.
Qed.

(** *** Construction, in detail *)

Lemma assign_meta (l : list ParamId) (sd : list Data)
    (st : ParamId -> Param) (p : ParamId) :
  p_grad (assign l sd st p) = p_grad (st p) /\
  p_requires_grad (assign l sd st p) = p_requires_grad (st p).
Proof.
  revert sd st. induction l as [| q l IH]; intros sd st; [now split |].
  destruct sd as [| d sd]; [now split |]. cbn [assign].
  destruct (IH sd (update [q]
             (fun _ x => {| p_data := d; p_grad := p_grad x;
                            p_requires_grad := p_requires_grad x |}) st))
    as [H1 H2].
  rewrite H1, H2. unfold update. destruct (mem p [q]); now split.
Qed.

Lemma loads_refl (l : list ParamId) (w : World) : loads l w w.
Proof.
  unfold loads. repeat split. exists []. cbn [map]. now rewrite app_nil_r.
Qed.

Lemma loads_trans (l : list ParamId) (w1 w2 w3 : World) :
  loads l w1 w2 -> loads l w2 w3 -> loads l w1 w3.
Proof.
  unfold loads.
  intros (F1 & O1 & P1 & N1 & W1 & G1 & M1 & S1 & [l1 L1])
         (F2 & O2 & P2 & N2 & W2 & G2 & M2 & S2 & [l2 L2]).
  repeat split; try congruence.
  - rewrite (proj1 (M2 p)). apply M1.
  - rewrite (proj2 (M2 p)). apply M1.
  - intros p Hp. rewrite S2, S1; auto.
  - exists (l1 ++ l2). now rewrite L2, L1, map_app, app_assoc.
Qed.

Lemma loads_incl (l l' : list ParamId) (w w' : World) :
  incl l l' -> loads l w w' -> loads l' w w'.
Proof.
  unfold loads.
  intros I (F1 & O1 & P1 & N1 & W1 & G1 & M1 & S1 & L1).
  repeat split; try assumption; try apply M1.
  intros p Hp. apply S1. intros H. apply Hp, I, H.
Qed.

Lemma loads_log (l : list ParamId) (path : string) (w : World) :
  loads l w (set_log (log w ++ [EvRead path]) w).
Proof. unfold loads. repeat split. now exists [path]. Qed.

Lemma load_weights_loads (net : Net) (path : string) (w : World) :
  loads (n_params net) w (final (load_weights net path w)).
Proof.
  rewrite load_weights_run.
  destruct (checkpoint w net path) as [sd |];
    cbn [final]; [| apply loads_log].
  unfold loads. proj. repeat split.
  - apply assign_meta.
  - apply assign_meta.
  - intros p Hp. now apply assign_other.
  - now exists [path].
Qed.

Lemma resume_loads (c : CycleGAN) (prefix : string) (train : bool)
    (w : World) :
  loads (all_params c) w (final (resume c prefix train w)).
Proof.
  assert (IA : incl (n_params (GenA c)) (all_params c))
    by (unfold all_params; auto using incl_appl, incl_refl).
  assert (IB : incl (n_params (GenB c)) (all_params c))
    by (unfold all_params; auto using incl_appl, incl_appr, incl_refl).
  unfold resume. destruct (file_exists (epoch_tracker c));
    [| apply loads_refl].
  cbv beta iota delta [bind].
  pose proof (loads_incl IA (load_weights_loads (GenA c)
                (prefix ++ "generator_a.pth") w)) as H1.
  destruct (load_weights (GenA c) _ w) as [[] w1 | e w1];
    cbn [final] in *; [| exact H1].
  pose proof (loads_incl IB (load_weights_loads (GenB c)
                (prefix ++ "generator_b.pth") w1)) as H2.
  destruct (load_weights (GenB c) _ w1) as [[] w2 | e w2];
    cbn [final] in *; [| exact (loads_trans H1 H2)].
  pose proof (loads_trans H1 H2) as H12.
  destruct train; [| exact H12].
  unfold init_attr.
  destruct (DisA c) as [dA |] eqn:EA; [| exact H12].
  cbv beta iota delta [ret].
  assert (IDA : incl (n_params dA) (all_params c)).
  { unfold all_params. rewrite EA. cbn [params_of flat_map].
    auto using incl_appl, incl_appr, incl_refl. }
  pose proof (loads_incl IDA (load_weights_loads dA
                (prefix ++ "discriminator_a.pth") w2)) as H3.
  destruct (load_weights dA _ w2) as [[] w3 | e w3];
    cbn [final] in *; [| exact (loads_trans H12 H3)].
  pose proof (loads_trans H12 H3) as H123.
  destruct (DisB c) as [dB |] eqn:EB; [| exact H123].
  assert (IDB : incl (n_params dB) (all_params c)).
  { unfold all_params. rewrite EA, EB. cbn [params_of flat_map].
    rewrite app_nil_r. auto using incl_appl, incl_appr, incl_refl. }
  pose proof (loads_incl IDB (load_weights_loads dB
                (prefix ++ "discriminator_b.pth") w3)) as H4.
  destruct (load_weights dB _ w3) as [[] w4 | e w4];
    cbn [final] in *; exact (loads_trans H123 H4).
Qed.


Lemma construct_frame (dev : Device) (prefix : string) (lr b1 : float)
    (train : bool) (w : World) :
  let w1 := final (construct dev prefix lr b1 train w) in
  files w1 = files w /\ log w1 = log w /\
  grad_enabled w1 = grad_enabled w /\
  (forall p, p < next_param w -> store w1 p = store w p) /\
  (forall o, o < next_optim w -> optim w1 o = optim w o).
Proof.
  assert (K : forall o, o < next_optim w ->
            Nat.eqb o (next_optim w) = false /\
            Nat.eqb o (S (next_optim w)) = false).
  { intros o Ho. split; apply Nat.eqb_neq; lia. }
  cbv zeta. unfold construct. mstep.
  unfold new_tracker, new_net, new_adam. mstep.
  destruct train; unfold inference_object; mstep.
  2: { repeat (split; [reflexivity |]).
       split; [intros p Hp; fresh_leaf p; reflexivity | reflexivity]. }
  rewrite !adam_accepts_seq.
  destruct (in_range lr (b1, 0.999%float)); cbn [andb].
  2: { proj. repeat (split; [reflexivity |]).
       split; [intros p Hp; fresh_leaf p; reflexivity | reflexivity]. }
  destruct (Nat.eqb (arch_size Generator + arch_size Generator) 0);
    cbn [negb andb].
  { proj. repeat (split; [reflexivity |]).
    split; [intros p Hp; fresh_leaf p; reflexivity | reflexivity]. }
  mstep.
  destruct (Nat.eqb (arch_size Discriminator + arch_size Discriminator) 0);
    cbn [negb]; mstep; proj; repeat (split; [reflexivity |]);
    (split; [intros p Hp; fresh_leaf p; reflexivity |]);
    intros o Ho; destruct (K o Ho) as [K1 K2]; now rewrite ?K2, ?K1.
Qed.

Lemma construct_world (dev : Device) (prefix : string) (lr b1 : float)
    (train : bool) (w : World) :
  hyper_ok train lr b1 = true ->
  exists w1,
    construct dev prefix lr b1 train w = Ok (constructed dev prefix train w) w1
    /\ (forall p, In p (all_params (constructed dev prefix train w)) ->
          next_param w <= p /\ p_grad (store w1 p) = None /\
          p_requires_grad (store w1 p) = true)
    /\ (train = true ->
        optim w1 (next_optim w) =
          fresh_adam (n_params (fresh_GenA w) ++ n_params (fresh_GenB w))
            lr b1 /\
        optim w1 (S (next_optim w)) =
          fresh_adam (n_params (fresh_DisA w) ++ n_params (fresh_DisB w))
            lr b1).
Proof.
  unfold hyper_ok. intros Hok.
  unfold construct, constructed. mstep.
  unfold new_tracker, new_net, new_adam. mstep.
  destruct train; unfold inference_object; mstep.
  - cbn [negb orb] in Hok. apply andb_prop in Hok. destruct Hok as [Hok Hd].
    apply andb_prop in Hok. destruct Hok as [Hr Hg].
    rewrite !adam_accepts_seq, Hr, Hg. cbn [andb]. mstep.
    rewrite Hd. mstep.
    eexists. split; [reflexivity |]. proj. split.
    + intros p Hp. unfold all_params, training_object in Hp.
      proj. cbn [params_of flat_map] in Hp. rewrite app_nil_r in Hp.
      unfold fresh_GenA, fresh_GenB, fresh_DisA, fresh_DisB in Hp.
      cbn [n_params] in Hp. rewrite !in_app_iff, !in_seq in Hp.
      split; [lia |].
      fresh_leaf p; proj; try (split; reflexivity).
      apply mem_false in E, E0, E1, E2. rewrite in_seq in E, E0, E1, E2. lia.
    + intros _. rewrite Nat.eqb_refl.
      destruct (Nat.eqb_spec (next_optim w) (S (next_optim w))); [lia |].
      rewrite Nat.eqb_refl. split; reflexivity.
  - eexists. split; [reflexivity |]. proj.
    split; [| discriminate].
    intros p Hp. unfold all_params in Hp.
    proj. cbn [params_of flat_map app] in Hp.
    unfold fresh_GenA, fresh_GenB in Hp.
    cbn [n_params] in Hp. rewrite !in_app_iff, !in_seq in Hp.
    cbn [In] in Hp. split; [lia |].
    fresh_leaf p; proj; try (split; reflexivity).
    apply mem_false in E, E0. rewrite in_seq in E, E0. lia.
Qed.

Lemma init_hyper_ok {O : Type} {options : O} {dev : Device}
    {prefix : string} {lr b1 : float} {train : bool} {w : World}
    {c : CycleGAN} {w' : World} :
  __init__ options dev prefix lr b1 train w = Ok c w' ->
  hyper_ok train lr b1 = true.
Proof.
  destruct (construct_run dev prefix lr b1 train w) as [w1 [Hrun _]].
  unfold __init__. cbv beta iota delta [bind ret]. rewrite Hrun.
  destruct (hyper_ok train lr b1); [reflexivity | discriminate].
Qed.

(** X12. Construction only allocates and reads: whether [__init__] returns
    or raises, it writes no file, leaves the tracking mode, every parameter
    and every optimizer that existed before as they were, and adds nothing
    to the log but reads of checkpoint files. *)
Theorem init_only_allocates_and_reads {O : Type} (options : O)
    (dev : Device) (prefix : string) (lr b1 : float) (train : bool)
    (w : World) :
  let w' := final (__init__ options dev prefix lr b1 train w) in
  files w' = files w /\
  grad_enabled w' = grad_enabled w /\
  (exists paths, log w' = log w ++ map EvRead paths) /\
  (forall p, p < next_param w -> store w' p = store w p) /\
  (forall o, o < next_optim w -> optim w' o = optim w o).
Proof.
  cbv zeta.
  pose proof (construct_frame dev prefix lr b1 train w) as F.
  cbv zeta in F.
  destruct (construct_run dev prefix lr b1 train w) as [w1 [Hrun _]].
  unfold __init__. cbv beta iota delta [bind ret].
  destruct (hyper_ok train lr b1) eqn:Hok.
  2: { rewrite Hrun in F |- *. cbn [final] in *.
       destruct F as (Hf & Hl & Hg & Hs & Ho).
       repeat (split; [assumption |]). split; [| split; assumption].
       exists []. cbn [map]. now rewrite app_nil_r. }
  destruct (construct_world dev prefix lr b1 train w Hok)
    as (w1' & Hrun' & Hnew & _).
  rewrite Hrun' in Hrun. injection Hrun as <-.
  rewrite Hrun' in F |- *. cbn [final] in F.
  destruct F as (Hf & Hl & Hg & Hs & Ho).
  assert (K : forall w2,
            loads (all_params (constructed dev prefix train w)) w1' w2 ->
            files w2 = files w /\ grad_enabled w2 = grad_enabled w /\
            (exists paths, log w2 = log w ++ map EvRead paths) /\
            (forall p, p < next_param w -> store w2 p = store w p) /\
            (forall o, o < next_optim w -> optim w2 o = optim w o)).
  { intros w2 (F2 & O2 & _ & _ & _ & G2 & _ & S2 & [paths L2]).
    repeat split; try congruence.
    - exists paths. congruence.
    - intros p Hp. rewrite S2; [now apply Hs |].
      intros Hin. apply Hnew in Hin. lia.
    - intros o Hlt. rewrite O2. now apply Ho. }
  pose proof (resume_loads (constructed dev prefix train w) prefix train w1')
    as HL.
  destruct (resume _ _ _ _) as [[] w2 | e w2]; cbn [final] in *;
    now apply K.
Qed.

(** X13. A training-mode construction that returns has created two Adam
    optimizers with the given learning rate and betas [(beta1, 0.999)]:
    [optimizer_g] over the parameters of GenA then GenB, [optimizer_d] over
    those of DisA then DisB.  The four networks share no parameter, and
    every parameter is trainable and has no gradient yet, also when
    checkpoint weights were loaded. *)
Theorem init_creates_optimizers {O : Type} (options : O) (dev : Device)
    (prefix : string) (lr b1 : float) (w : World) (c : CycleGAN)
    (w' : World) :
  __init__ options dev prefix lr b1 true w = Ok c w' ->
  exists dA dB og od,
    DisA c = Some dA /\ DisB c = Some dB /\
    optimizer_g c = Some og /\ optimizer_d c = Some od /\ og <> od /\
    optimizers c = Some [og; od] /\
    optim w' og = fresh_adam (n_params (GenA c) ++ n_params (GenB c)) lr b1 /\
    optim w' od = fresh_adam (n_params dA ++ n_params dB) lr b1 /\
    NoDup (n_params (GenA c) ++ n_params (GenB c) ++
           n_params dA ++ n_params dB) /\
    forall p, In p (n_params (GenA c) ++ n_params (GenB c) ++
                    n_params dA ++ n_params dB) ->
      p_requires_grad (store w' p) = true /\ p_grad (store w' p) = None.
Proof.
  intros Hinit.
  destruct (construct_world dev prefix lr b1 true w (init_hyper_ok Hinit))
    as (w1 & Hrun & Hnew & Hopt).
  destruct (Hopt eq_refl) as [Hg Hd].
  pose proof (resume_loads (constructed dev prefix true w) prefix true w1)
    as HL.
  unfold __init__ in Hinit. cbv beta iota delta [bind ret] in Hinit.
  rewrite Hrun in Hinit.
  destruct (resume _ _ _ _) as [[] w2 | e w2]; [| discriminate].
  injection Hinit as <- <-. cbn [final] in HL.
  destruct HL as (_ & O2 & _ & _ & _ & _ & M2 & _ & _).
  exists (fresh_DisA w), (fresh_DisB w), (next_optim w), (S (next_optim w)).
  unfold constructed, training_object, inference_object. proj.
  repeat (split; [reflexivity |]). split; [lia |].
  split; [reflexivity |]. rewrite O2.
  split; [exact Hg |]. split; [exact Hd |]. split.
  - unfold fresh_GenA, fresh_GenB, fresh_DisA, fresh_DisB. cbn [n_params].
    rewrite <- !seq_app. apply seq_NoDup.
  - intros p Hp. destruct (M2 p) as [M2g M2f]. rewrite M2g, M2f.
    destruct (Hnew p) as (_ & Hgrad & Hflag); [| now split].
    unfold all_params, constructed, training_object, inference_object.
    proj. cbn [params_of flat_map]. now rewrite app_nil_r.
Qed.

(** *** Saving, then constructing again *)







(** *** Tracking mode and flags over a run *)

Lemma same_mode_trans (w1 w2 w3 : World) :
  same_mode w1 w2 -> same_mode w2 w3 -> same_mode w1 w3.
Proof.
  unfold same_mode. intros (A1 & B1 & C1) (A2 & B2 & C2).
  repeat split; congruence.
Qed.

Lemma test_same_mode (s : State) : on_world same_mode s (final (test s)).
Proof.
  unfold test, no_grad.
  pose proof (@forward_keepsW same_mode
                (fun w => conj eq_refl (conj eq_refl eq_refl))
                same_mode_trans
                (fun l w => conj eq_refl (conj eq_refl eq_refl))
                {| self := self s;
                   world := set_grad_enabled false (world s) |}) as H.
  destruct (forward _) as [[] s1 | e s1]; cbn [final] in *;
    unfold on_world, same_mode in *; proj;
    destruct H as (_ & B & C); repeat split; assumption.
Qed.

Lemma run_same_mode (c : Call) (s : State) :
  on_world same_mode s (run c s).
Proof.
  assert (Hrefl : forall w, same_mode w w) by (repeat split).
  assert (Hlog : forall l w, same_mode w (set_log l w)) by (repeat split).
  assert (Hfiles : forall f w, same_mode w (set_files f w))
    by (repeat split).
  assert (Hst : forall f w, same_mode w (set_store f w)) by (repeat split).
  destruct c; cbn [run].
  - apply set_input_keepsW; first [assumption | apply same_mode_trans].
  - apply forward_keepsW; first [assumption | apply same_mode_trans].
  - apply backward_d_keepsW;
      first [assumption | apply same_mode_trans | intros; apply Hst].
  - apply backward_g_keepsW;
      first [assumption | apply same_mode_trans | intros; apply Hst].
  - apply train_keepsW;
      first [assumption | apply same_mode_trans | intros; apply Hst
            | intros; repeat split].
  - apply test_same_mode.
  - apply save_progress_keepsW; first [assumption | apply same_mode_trans].
  - apply keeps_on_world.
    apply keepsW_set_requires_grad;
      first [assumption | apply same_mode_trans | intros; apply Hst].
Qed.

Lemma same_flags_trans (w1 w2 w3 : World) :
  same_flags w1 w2 -> same_flags w2 w3 -> same_flags w1 w3.
Proof. unfold same_flags. intros H1 H2 p. now rewrite H2. Qed.

Lemma same_flags_update (l : list ParamId) (f : ParamId -> Param -> Param)
    (w : World) :
  (forall q x, p_requires_grad (f q x) = p_requires_grad x) ->
  same_flags w (set_store (update l f (store w)) w).
Proof. intros H p. cbn [store set_store]. now apply update_flag. Qed.

Lemma run_same_flags (c : Call) (s : State) :
  sets_flags c = false -> on_world same_flags s (run c s).
Proof.
  assert (Hrefl : forall w, same_flags w w) by (intros w p; reflexivity).
  assert (Hlog : forall l w, same_flags w (set_log l w))
    by (intros l w p; reflexivity).
  assert (Hmode : forall b w, same_flags w (set_grad_enabled b w))
    by (intros b w p; reflexivity).
  assert (Hfiles : forall f w, same_flags w (set_files f w))
    by (intros f w p; reflexivity).
  assert (Hacc : forall l loss w,
            same_flags w
              (set_store (update l (accumulate loss) (store w)) w))
    by (intros; now apply same_flags_update).
  destruct c; cbn [run sets_flags]; intros H; try discriminate.
  - apply set_input_keepsW; first [assumption | apply same_flags_trans].
  - apply forward_keepsW; first [assumption | apply same_flags_trans].
  - apply backward_d_keepsW; first [assumption | apply same_flags_trans].
  - apply backward_g_keepsW; first [assumption | apply same_flags_trans].
  - apply test_keepsW; first [assumption | apply same_flags_trans].
  - apply save_progress_keepsW; first [assumption | apply same_flags_trans].
Qed.

(** X15. No method leaves the tracking mode changed or allocates anything:
    after any sequence of calls, failed or not, gradient tracking is on or
    off as it was (a [test] that raises restores it too) and the world holds
    the parameters and optimizers it held. *)
Theorem tracking_mode_survives_every_call (calls : list Call) (s : State) :
  let s' := run_all calls s in
  grad_enabled (world s') = grad_enabled (world s) /\
  next_param (world s') = next_param (world s) /\
  next_optim (world s') = next_optim (world s).
Proof.
  cbv zeta. revert s. induction calls as [| c calls IH]; intros s.
  - repeat split.
  - cbn [run_all fold_left].
    change (same_mode (world s) (world (run_all calls (run c s)))).
    eapply same_mode_trans; [apply run_same_mode | apply IH].
Qed.

(** X16. Only [train] and [set_requires_grad] switch a parameter between
    frozen and trainable: after any sequence of other calls, failed or not,
    every parameter has the flag it had. *)
Theorem flags_changed_only_by_freezing (calls : list Call) (s : State) :
  forallb (fun c => negb (sets_flags c)) calls = true ->
  forall p,
    p_requires_grad (store (world (run_all calls s)) p)
      = p_requires_grad (store (world s) p).
Proof.
  revert s. induction calls as [| c calls IH]; intros s H p; [reflexivity |].
  cbn [forallb] in H. apply andb_true_iff in H. destruct H as [H1 H2].
  apply negb_true_iff in H1. cbn [run_all fold_left].
  change (p_requires_grad (store (world (run_all calls (run c s))) p)
          = p_requires_grad (store (world s) p)).
  rewrite (IH _ H2 p). now apply run_same_flags.
Qed.

(** *** The name of the sample image *)

Lemma uint_free_of (c : Ascii.ascii) (d : Decimal.uint) :
  (forall x, In x ["0"; "1"; "2"; "3"; "4"; "5"; "6"; "7"; "8"; "9"]%char ->
     x <> c) ->
  free_of c (NilEmpty.string_of_uint d).
Proof.
  intros H. induction d; cbn [NilEmpty.string_of_uint free_of];
    [exact I | ..]; (split; [apply H; cbn [In]; tauto | assumption]).
Qed.

Lemma format_int_free_of (c : Ascii.ascii) (n : Z) :
  (forall x, In x ["-"; "0"; "1"; "2"; "3"; "4"; "5"; "6"; "7"; "8";
                   "9"]%char -> x <> c) ->
  free_of c (format_int n).
Proof.
  intros H.
  assert (Hd : forall d, free_of c (NilZero.string_of_uint d)).
  { intros d. unfold NilZero.string_of_uint.
    assert (free_of c (NilEmpty.string_of_uint d))
      by (apply uint_free_of; intros x Hx; apply H; now right).
    destruct d; try assumption.
    cbn [free_of]. split; [apply H; cbn [In]; tauto | exact I]. }
  unfold format_int, NilZero.string_of_int.
  destruct (Z.to_int n) as [d | d]; [apply Hd |].
  cbn [free_of]. split; [apply H; now left | apply Hd].
Qed.

Lemma split_at (c : Ascii.ascii) (a b x y : string) :
  free_of c a -> free_of c b ->
  (a ++ String c x)%string = (b ++ String c y)%string -> a = b /\ x = y.
Proof.
  revert b. induction a as [| ch a IH]; intros [| ch' b];
    cbn [free_of String.append]; intros Ha Hb E.
  - injection E as E. now split.
  - injection E as E _. destruct Hb as [Hb _]. congruence.
  - injection E as E _. destruct Ha as [Ha _]. congruence.
  - injection E as E1 E2. destruct Ha as [_ Ha], Hb as [_ Hb].
    destruct (IH b Ha Hb E2) as [-> ->]. subst. now split.
Qed.

Lemma format_int_inj (n m : Z) : format_int n = format_int m -> n = m.
Proof.
  unfold format_int. intros E. apply DecimalZ.to_int_inj.
  assert (K : forall z, NilZero.int_of_string
                (NilZero.string_of_int (Z.to_int z)) = Some (Z.to_int z)).
  { intros z. apply NilZero.isi.
    - destruct z; cbn; try discriminate.
      all: intros Hn; injection Hn as Hn;
        revert Hn; apply DecimalPos.Unsigned.to_uint_nonnil.
    - destruct z; cbn; try discriminate.
      all: intros Hn; injection Hn as Hn;
        revert Hn; apply DecimalPos.Unsigned.to_uint_nonnil. }
  pose proof (K n) as Kn. rewrite E, K in Kn. now injection Kn.
Qed.

(** X17. The sample images of different checkpoints never share a file:
    for one [path], the image name ["{}{}_{}.png"] determines the epoch and
    the iteration. *)
Theorem image_path_determines_checkpoint (path : string)
    (epoch iteration epoch' iteration' : Z) :
  image_path path epoch iteration = image_path path epoch' iteration' ->
  epoch = epoch' /\ iteration = iteration'.
Proof.
  unfold image_path. intros E. apply append_cancel in E.
  change ("_" ++ ?x)%string with (String "_"%char x) in E.
  apply split_at in E;
    try (apply format_int_free_of; intros x Hx; cbn [In] in Hx;
         intuition (subst; discriminate)).
  destruct E as [E1 E2].
  change ".png" with (String "."%char "png") in E2.
  apply split_at in E2;
    try (apply format_int_free_of; intros x Hx; cbn [In] in Hx;
         intuition (subst; discriminate)).
  destruct E2 as [E2 _].
  split; now apply format_int_inj.
Qed.

(** *** What a controller learns *)

Lemma train_same_weights (s : State) :
  on_world same_weights s (final (train s)).
Proof.
  assert (Hfw : on_world same_weights s (final (forward s))).
  { apply forward_keepsW;
      first [apply same_weights_trans | intros; split; reflexivity]. }
  destruct (forward s) as [[] [c1 w1] | e s1] eqn:E.
  2: { unfold train. cbv beta iota delta [bind]. now rewrite E. }
  cbn [final] in Hfw. unfold on_world in *. proj.
  destruct (DisA c1) as [dA |] eqn:HA.
  2: { unfold train. cbv beta iota delta [bind]. rewrite E.
       unfold attr at 1. proj. now rewrite HA. }
  destruct (DisB c1) as [dB |] eqn:HB.
  2: { unfold train. cbv beta iota delta [bind]. rewrite E.
       unfold attr at 1. proj. rewrite HA.
       unfold attr at 1. proj. now rewrite HB. }
  destruct (optimizer_g c1) as [og |] eqn:Hog.
  - destruct (@train_after_forward s c1 w1 dA dB og E HA HB Hog)
      as (e & s' & Hrun & Hd & Ho & _).
    rewrite Hrun. cbn [final].
    apply same_weights_trans with (w2 := w1); [exact Hfw |].
    split; assumption.
  - unfold train. cbv beta iota delta [bind]. rewrite E.
    unfold attr at 1. proj. rewrite HA.
    unfold attr at 1. proj. rewrite HB.
    unfold liftW at 1. proj.
    destruct (set_requires_grad_run [Some dA; Some dB] false w1)
      as [w2 [R2 [S2 [_ E2]]]].
    rewrite R2. destruct E2 as [_ [O2 _]].
    unfold attr at 1. proj. rewrite Hog. cbn [final]. proj.
    apply same_weights_trans with (w2 := w1); [exact Hfw |].
    split; [| exact O2].
    intros p. rewrite S2. now destruct (mem p _).
Qed.

(** X18. A controller never learns: after any sequence of method calls,
    [train] included, returned or raised, every parameter holds the value
    it held and every optimizer is as it was.  The only optimizer steps of
    the class are in [train], behind [backward_g], which always raises. *)
Theorem no_call_changes_a_weight (calls : list Call) (s : State) :
  (forall p, p_data (store (world (run_all calls s)) p)
             = p_data (store (world s) p)) /\
  optim (world (run_all calls s)) = optim (world s).
Proof.
  revert s. induction calls as [| c calls IH]; intros s.
  - split; reflexivity.
  - cbn [run_all fold_left].
    change (same_weights (world s) (world (run_all calls (run c s)))).
    apply same_weights_trans with (w2 := world (run c s)); [| apply IH].
    destruct (is_train_call c) eqn:Hc.
    + destruct c; try discriminate. apply train_same_weights.
    + now apply run_same_weights.
Qed.

End Properties.

(** * The controller at work on the small substrate *)

Section ToyRuns.

#[local] Existing Instance toy.

Lemma toy_new_is_init (train : bool) :
  @__init__ toy unit tt tt "run/" 0.0002%float 0.5%float train toy_world =
    Ok (self (toy_new train)) (world (toy_new train)).
Proof. destruct train; reflexivity. Qed.

Lemma forward_wiring_witness :
  exists s' nA nB,
    (set_input (toy_tensor 1.0%float) (toy_tensor 3.0%float) ;; forward)
      (toy_new false) = Ok tt s' /\
    new_A (self s') = Some nA /\ t_data nA = 5.0%float /\
    new_B (self s') = Some nB /\ t_data nB = 7.0%float.
Proof.
  destruct (@forward_wiring toy (toy_new false)
              (toy_tensor 1.0%float) (toy_tensor 3.0%float)
              3.0%float 5.0%float 5.0%float 7.0%float
              eq_refl eq_refl eq_refl eq_refl)
    as (s' & rA & rB & fB & nA & fA & nB & Hrun & _ & _ & _ & HnA & _
        & HnB & -> & -> & _ & _ & _ & _ & H1 & H2 & _).
  exists s', nA, nB. split; [exact Hrun |].
  vm_compute in H1. vm_compute in H2.
  injection H1 as H1. injection H2 as H2.
  repeat split; [exact HnA | now symmetry | exact HnB | now symmetry].
Defined.

Lemma test_forward_without_tracking_witness :
  exists s',
    (set_input (toy_tensor 1.0%float) (toy_tensor 3.0%float) ;; test)
      (toy_new false) = Ok tt s' /\
    fake_B (self s') = Some (toy_tensor 3.0%float) /\
    fake_A (self s') = Some (toy_tensor 5.0%float) /\
    store (world s') = store (world (toy_new false)).
Proof.
  destruct (@test_forward_without_tracking toy (toy_new false)
              (toy_tensor 1.0%float) (toy_tensor 3.0%float)
              3.0%float 5.0%float 5.0%float 7.0%float
              eq_refl eq_refl eq_refl eq_refl)
    as (_ & s' & rA & rB & Hrun & _ & _ & HfB & HfA & _ & _ & Hst & _).
  exists s'. repeat split; assumption.
Defined.

Lemma forward_before_set_input_witness :
  forward (run_all [call_test; call_train] (toy_new true)) =
    Raise UninitializedInputError
      (run_all [call_test; call_train] (toy_new true)).
Proof.
  exact (proj2 (@forward_before_set_input toy unit tt tt "run/"
                  0.0002%float 0.5%float true toy_world _ _
                  [call_test; call_train] (toy_new_is_init true) eq_refl)).
Defined.

Lemma save_progress_fails_without_discriminators_witness :
  raised (save_progress "out/" 1 2 (run_all toy_calls (toy_new false))) = true.
Proof.
  exact (proj1 (proj2 (proj2 (proj2
           (@save_progress_fails_without_discriminators toy unit tt tt "run/"
              0.0002%float 0.5%float toy_world _ _ toy_calls "out/" 1%Z 2%Z
              (toy_new_is_init false)))))).
Defined.

Lemma backward_d_stops_at_criterion_witness :
  backward_d toy_DisA (Some (toy_tensor 3.0%float)) (Some toy_fake_B)
    (run_all toy_calls (toy_new true))
  = Raise (AttributeError "size")
      (final (backward_d toy_DisA (Some (toy_tensor 3.0%float))
                (Some toy_fake_B) (run_all toy_calls (toy_new true)))).
Proof.
  destruct (@backward_d_stops_at_criterion toy unit tt tt "run/"
              0.0002%float 0.5%float toy_world _ _ toy_calls toy_DisA
              (Some (toy_tensor 3.0%float)) (Some toy_fake_B)
              (toy_new_is_init true))
    as (_ & _ & _ & _ & _ & H).
  exact (H (toy_tensor 3.0%float) 3.5%float eq_refl eq_refl).
Defined.


Lemma backward_g_stops_at_criterion_witness :
  backward_g (run_all toy_calls (toy_new true))
  = Raise (AttributeError "size")
      (final (backward_g (run_all toy_calls (toy_new true)))) /\
  loss_G (self (final (backward_g (run_all toy_calls (toy_new true)))))
  = Some (VInt 0).
Proof.
  destruct (@backward_g_stops_at_criterion toy unit tt tt "run/"
              0.0002%float 0.5%float toy_world _ _ toy_calls
              (toy_new_is_init true))
    as (_ & _ & _ & _ & _ & Hself & _ & _ & H).
  split; [exact (H toy_fake_B 3.5%float eq_refl eq_refl) |].
  exact (eq_trans (f_equal loss_G Hself) eq_refl).
Defined.

Lemma train_stops_at_criterion_witness :
  exists s',
    train toy_batch = Raise (AttributeError "size") s' /\
    List.length (log (world s')) = 8 /\
    p_requires_grad (store (world s') 4) = false /\
    loss_G (self s') = Some (VInt 0).
Proof.
  destruct (@train_stops_at_criterion toy toy_batch
              (toy_tensor 1.0%float) (toy_tensor 3.0%float)
              toy_DisA toy_DisB 0 gan_criterion
              3.0%float 5.0%float 5.0%float 7.0%float 3.5%float
              eq_refl eq_refl eq_refl eq_refl eq_refl eq_refl
              eq_refl eq_refl eq_refl eq_refl eq_refl)
    as (_ & s' & Hrun & Hlog & _ & _ & Hflag & _ & _ & _ & _ & HG & _).
  exists s'. split; [exact Hrun |].
  split; [rewrite Hlog; reflexivity |].
  split; [apply Hflag; cbn; auto |].
  rewrite HG. reflexivity.
Defined.


Lemma set_requires_grad_sets_every_flag_witness :
  exists w',
    set_requires_grad [None; Some toy_DisA; Some toy_DisB] false
      (world toy_batch) = Ok tt w' /\
    p_requires_grad (store w' 4) = false /\
    p_requires_grad (store w' 5) = false /\
    store w' 0 = store (world toy_batch) 0.
Proof.
  destruct (@set_requires_grad_sets_every_flag toy
              [None; Some toy_DisA; Some toy_DisB] false (world toy_batch))
    as (w' & Hrun & Hflag & _ & Hother & _).
  exists w'. split; [exact Hrun |]. repeat split.
  - apply (Hflag toy_DisA 4); cbn; auto.
  - apply (Hflag toy_DisB 5); cbn; auto.
  - apply Hother. intros n [H | [H | [H | []]]]; try discriminate;
      injection H as <-; intros [E | []]; discriminate.
Defined.

Lemma files_written_only_by_save_progress_witness :
  files (world (run_all [call_forward; call_train; call_test] toy_batch))
    = files (world toy_batch).
Proof.
  apply (@files_written_only_by_save_progress toy
           [call_forward; call_train; call_test] toy_batch).
  reflexivity.
Defined.

Lemma weights_changed_only_by_train_witness :
  optim (world (run_all [call_backward_g; call_save_progress "out/" 1 2]
                  toy_passed))
    = optim (world toy_passed).
Proof.
  apply (@weights_changed_only_by_train toy
           [call_backward_g; call_save_progress "out/" 1 2] toy_passed).
  reflexivity.
Defined.

Lemma flags_changed_only_by_freezing_witness :
  p_requires_grad
    (store (world (run_all [call_backward_g; call_test] toy_passed)) 4)
    = p_requires_grad (store (world toy_passed) 4).
Proof.
  apply (@flags_changed_only_by_freezing toy
           [call_backward_g; call_test] toy_passed).
  reflexivity.
Defined.

Lemma training_methods_raise_in_inference_mode_witness :
  backward_g (toy_new false)
    = Raise (AttributeError "criterionGAN") (toy_new false).
Proof.
  exact (proj1 (proj2 (proj2 (proj2
           (@training_methods_raise_in_inference_mode toy (toy_new false)
              toy_DisA None None eq_refl eq_refl))))).
Defined.

Lemma forward_fails_half_way_witness :
  exists s',
    @forward picky picky_batch = Raise ShapeMismatchError s' /\
    @fake_B picky (self s') = Some (picky_tensor 2.0%float [0; 1]) /\
    @fake_A picky (self s') = None.
Proof.
  destruct (@forward_fails_half_way picky picky_batch
              (picky_tensor 0%float []) (picky_tensor 5.0%float [])
              2.0%float 4.0%float
              eq_refl eq_refl eq_refl eq_refl eq_refl)
    as (s' & Hrun & HfB & _ & HfA & _).
  exists s'. split; [exact Hrun |]. split; [exact HfB | exact HfA].
Defined.

Lemma save_progress_needs_samples_witness :
  save_progress "out/" 1 2 (toy_new true)
    = Raise (AttributeError "data") (toy_new true).
Proof.
  apply (@save_progress_needs_samples toy "out/" 1%Z 2%Z (toy_new true)).
  left. reflexivity.
Defined.

Lemma save_progress_writes_checkpoint_witness :
  exists s',
    save_progress "out/" 1 2 toy_passed = Ok tt s' /\
    log (world s') =
      log (world toy_passed) ++
        [EvWrite "out/1_2.png"; EvWrite "run/generator_a.pth";
         EvWrite "run/generator_b.pth"; EvWrite "run/discriminator_a.pth";
         EvWrite "run/discriminator_b.pth"; EvWrite "run/epoch.txt"].
Proof.
  destruct (@save_progress_writes_checkpoint toy "out/" 1%Z 2%Z toy_passed
              (toy_tensor 1.0%float) toy_fake_A (toy_tensor 3.0%float)
              toy_fake_B 12.0%float toy_DisA toy_DisB
              eq_refl eq_refl eq_refl eq_refl eq_refl eq_refl eq_refl
              (fun _ _ => eq_refl))
    as (s' & Hrun & _ & _ & Hlog & _).
  exists s'. split; [exact Hrun | exact Hlog].
Defined.


Lemma train_leaves_discriminators_frozen_witness :
  raised (train toy_batch) = true /\
  p_requires_grad (store (world (final (train toy_batch))) 4) = false /\
  p_requires_grad (store (world (final (train toy_batch))) 5) = false.
Proof.
  destruct (@train_leaves_discriminators_frozen toy toy_batch
              toy_DisA toy_DisB 0 eq_refl eq_refl eq_refl eq_refl)
    as [Hr Hf].
  split; [exact Hr |]. split; apply Hf; cbn; auto.
Defined.

Lemma train_without_tracking_witness :
  raised (train toy_untracked) = true.
Proof.
  destruct (@train_without_tracking toy toy_untracked eq_refl)
    as (e & s' & Hrun & _).
  rewrite Hrun. reflexivity.
Defined.

Lemma init_creates_optimizers_witness :
  exists og od,
    optimizer_g (self (toy_new true)) = Some og /\
    optimizer_d (self (toy_new true)) = Some od /\
    o_params (optim (world (toy_new true)) og) = [0; 1; 2; 3] /\
    o_params (optim (world (toy_new true)) od) = [4; 5].
Proof.
  destruct (@init_creates_optimizers toy unit tt tt "run/" 0.0002%float
              0.5%float toy_world _ _ (toy_new_is_init true))
    as (dA & dB & og & od & HA & HB & Hg & Hd & _ & _ & Og & Od & _).
  exists og, od. split; [exact Hg |]. split; [exact Hd |].
  rewrite Og, Od. injection HA as <-. injection HB as <-.
  split; reflexivity.
Defined.

Lemma image_path_determines_checkpoint_witness :
  1%Z = 1%Z /\ 2%Z = 2%Z.
Proof.
  apply image_path_determines_checkpoint with (path := "out/").
  reflexivity.
Defined.

End ToyRuns.
